(** * The playbook prototype page and the MetaNode builder

    A shallow embedding of [src/app/pages/index.tsx]: the React component
    [App] with its three state hooks and its event handlers, and the class
    [MetaNode] whose methods build the node records that [App] reads from
    the registries.

    - JavaScript values are a small inductive type; a thrown exception is
      an abrupt completion carrying an [Error] object.
    - Event handlers are computations in a state-and-exception monad over
      the hook store and the log of requests handed to [fetch].
    - [MetaNode] instances live on a heap of objects: what is proved of
      the builder is a frame property of [new MetaNode({ ...this.t, a })]. *)

From Stdlib Require Import ZArith List String Ascii DecimalString.
From stdpp Require Import gmap strings list fin_maps.
Import ListNotations.
Local Open Scope string_scope.
Local Open Scope list_scope.
Set Warnings "-register-all".

(** ** JavaScript values *)

(** Numbers are restricted to the integers: no handler of the page does
    arithmetic, a number only ever travels through the buffer. *)
Inductive JSValue : Type :=
| JUndefined
| JNull
| JBool (b : bool)
| JNum (n : Z)
| JStr (s : string)
| JArr (items : list JSValue)
| JObj (props : list (string * JSValue)).

(** The abstract operation ToString, as applied by template literals,
    computed property keys and [FormData.append]. *)
Fixpoint ToString (v : JSValue) : string :=
  match v with
  | JUndefined => "undefined"
  | JNull => "null"
  | JBool true => "true"
  | JBool false => "false"
  | JNum n => NilZero.string_of_int (Z.to_int n)
  | JStr s => s
  | JArr items =>
      String.concat ","
        (List.map (fun x => match x with
                            | JUndefined | JNull => ""
                            | _ => ToString x
                            end) items)
  | JObj _ => "[object Object]"
  end.

(** An object with string keys, as the list of its own enumerable
    properties in the order in which [Object.keys], [Object.values] and
    [for ... in] enumerate them. *)
Definition JSObject (A : Type) : Type := list (string * A).

Definition Object_keys {A} (o : JSObject A) : list string := List.map fst o.
Definition Object_values {A} (o : JSObject A) : list A := List.map snd o.

(** [o[k]]: [None] stands for [undefined]. *)
Fixpoint get {A} (o : JSObject A) (k : string) : option A :=
  match o with
  | [] => None
  | (k', a) :: o' => if String.eqb k' k then Some a else get o' k
  end.

(** ['k' in o] *)
Definition has_key {A} (k : string) (o : JSObject A) : bool :=
  match get o k with Some _ => true | None => false end.

(** [a[0]] on an array of strings. *)
Definition index0 (a : list string) : JSValue :=
  match a with
  | [] => JUndefined
  | k :: _ => JStr k
  end.

(** ** Exceptions *)

(** What is thrown is an instance of [Error]: a name and a message. *)
Record JSError : Type := { name : string; message : string }.

(** [Error.prototype.toString] *)
Definition Error_toString (e : JSError) : string :=
  if String.eqb (name e) "" then message e
  else if String.eqb (message e) "" then name e
  else name e +:+ ": " +:+ message e.

Definition TypeError (msg : string) : JSError :=
  {| name := "TypeError"; message := msg |}.

Inductive Completion (A : Type) : Type :=
| Normal (a : A)
| Throw (e : JSError).
Arguments Normal {A} a.
Arguments Throw {A} e.

(** ** The component's state and its handlers' monad *)

(** The three [React.useState] slots of [App]. [prompt] is [undefined]
    ([None]) or the id of a prompt node. *)
Record Hooks : Type := {
  data : JSValue;
  dataType : string;
  prompt : option string
}.


(** [new FormData()] and [formData.append(name, value)]: the value of a
    field that is not a Blob is converted to a string. *)
Definition FormData : Type := list (string * string).
Definition FormData_append (fd : FormData) (field : string) (value : JSValue)
  : FormData :=
  fd ++ [(field, ToString value)].

Record Request : Type := {
  url : string;
  method : string;
  body : FormData
}.

(** What [req.json()] settles to: the decoded body, or a rejection. *)
Record Response : Type := { json : Completion JSValue }.

(** What a handler can read and change: the hook store, and the requests
    it has handed to [fetch] so far (oldest first). *)
Record World : Type := {
  hooks : Hooks;
  requests : list Request
}.

Definition M (A : Type) : Type := World -> Completion A * World.

Definition ret {A} (a : A) : M A := fun w => (Normal a, w).

Definition bind {A B} (c : M A) (k : A -> M B) : M B :=
  fun w => match c w with
           | (Normal a, w') => k a w'
           | (Throw e, w') => (Throw e, w')
           end.

Definition throw {A} (e : JSError) : M A := fun w => (Throw e, w).

(** [try { body } catch (e) { handler }]: what [body] did to the world
    before it threw stays done. *)
Definition try_catch {A} (body : M A) (handler : JSError -> M A) : M A :=
  fun w => match body w with
           | (Normal a, w') => (Normal a, w')
           | (Throw e, w') => handler e w'
           end.

(** A call of a function of the registries, which reads no hook. *)
Definition call {A} (c : Completion A) : M A := fun w => (c, w).

Notation "'let*' x ':=' c 'in' k" := (bind c (fun x => k))
  (at level 10, x pattern, c at level 100, k at level 200).
Notation "c ';;' k" := (bind c (fun _ => k))
  (at level 100, k at level 200, right associativity).

(** Reading a field of [o[k]]: a [TypeError] when [o[k]] is [undefined]. *)
Definition member {A} (o : option A) (field : string) : M A :=
  match o with
  | Some a => ret a
  | None =>
      throw (TypeError ("Cannot read properties of undefined (reading '"
                          +:+ field +:+ "')"))
  end.

Fixpoint mapM {A B} (f : A -> M B) (l : list A) : M (list B) :=
  match l with
  | [] => ret []
  | a :: l' => let* b := f a in let* bs := mapM f l' in ret (b :: bs)
  end.

Definition useData : M JSValue := fun w => (Normal (data (hooks w)), w).
Definition useDataType : M string :=
  fun w => (Normal (dataType (hooks w)), w).
Definition usePrompt : M (option string) :=
  fun w => (Normal (prompt (hooks w)), w).

Definition setData (v : JSValue) : M unit :=
  fun w => (Normal tt,
            {| hooks := {| data := v;
                           dataType := dataType (hooks w);
                           prompt := prompt (hooks w) |};
               requests := requests w |}).

Definition setDataType (t : string) : M unit :=
  fun w => (Normal tt,
            {| hooks := {| data := data (hooks w);
                           dataType := t;
                           prompt := prompt (hooks w) |};
               requests := requests w |}).

Definition setPrompt (p : option string) : M unit :=
  fun w => (Normal tt,
            {| hooks := {| data := data (hooks w);
                           dataType := dataType (hooks w);
                           prompt := p |};
               requests := requests w |}).

(** [if (prompt)]: [undefined] and the empty string are falsy. *)
Definition truthy (p : option string) : bool :=
  match p with
  | Some s => negb (String.eqb s "")
  | None => false
  end.

(** ** Elements *)

(** The props [App] passes to a prompt component. *)
Record PromptProps : Type := {
  inputs : JSObject JSValue;
  submit : JSValue -> M unit
}.

(** What a render produces. [<Prompt .../>] is an element that names its
    component and carries its props; React calls the component later. *)
Inductive ReactNode : Type :=
| Text (s : string)
| div (children : list ReactNode)
| Element (component : PromptProps -> ReactNode) (props : PromptProps).

(** ** Nodes ([@/spec/metanode]) *)

(** [Codec<T>] of [@/spec/codec], which is not part of the sources at
    hand: a pair of functions, either of which may throw. *)
Record Codec : Type := {
  encode : JSValue -> Completion string;
  decode : JSValue -> Completion JSValue
}.

Module DataNode.
Record t : Type := {
  spec : string;
  meta : JSObject JSValue;
  codec : Codec;
  view : JSValue -> Completion ReactNode
}.
End DataNode.
Abbreviation MetaNodeDataType := DataNode.t.

Module PromptNode.
Record t : Type := {
  spec : string;
  meta : JSObject JSValue;
  inputs : JSObject MetaNodeDataType;
  output : MetaNodeDataType;
  prompt : PromptProps -> ReactNode
}.
End PromptNode.
Abbreviation MetaNodePromptType := PromptNode.t.

(** [resolve] runs on the server behind [/api/resolver/<spec>]; the page
    never calls it. *)
Module ResolveNode.
Record t : Type := {
  spec : string;
  meta : JSObject JSValue;
  inputs : JSObject MetaNodeDataType;
  output : MetaNodeDataType;
  resolve : JSObject JSValue -> Completion JSValue
}.
End ResolveNode.
Abbreviation MetaNodeResolveType := ResolveNode.t.

(** ** What [App] returns *)

Record button : Type := {
  fontWeight : string;
  onClick : M unit;
  label : string
}.

(** One line of "Apply Process": the joined input ids when the process
    declares inputs, the button, the output id. *)
Record ProcessRow : Type := {
  key : string;
  inputs_span : option string;
  process_button : button;
  output_span : string
}.

Record JsonEditorProps : Type := {
  value : JSValue;
  onValueChange : string -> M unit
}.

Record select : Type := {
  select_value : string;
  onChange : string -> M unit;
  options : list string
}.

Record AppView : Type := {
  Process_prompt : list ProcessRow;
  Process_resolve : list ProcessRow;
  Data_editor : JsonEditorProps;
  Examples : list button;
  View_select : select;
  View_dataNodeView : option ReactNode
}.

(** ** [App] *)

Section Page.

(** The registries of [@/app/nodes] and the behaviour of the transport
    behind [fetch]. *)
Variable dataNodes : JSObject MetaNodeDataType.
Variable resolveNodes : JSObject MetaNodeResolveType.
Variable promptNodes : JSObject MetaNodePromptType.
Variable network : Request -> Completion Response.

(** [await fetch(url, { method: 'POST', body })]: the request is logged,
    and the promise settles as the transport decides. *)
Definition fetch (u : string) (fd : FormData) : M Response :=
  fun w =>
    let req := {| url := u; method := "POST"; body := fd |} in
    (network req, {| hooks := hooks w; requests := requests w ++ [req] |}).

(** The [submit] prop of the prompt element, lines 19-23. *)
Definition Prompt_submit (prompt : string) (output : JSValue) : M unit :=
  let* node := member (get promptNodes prompt) "output" in
  setDataType (DataNode.spec (PromptNode.output node)) ;;
  let* node := member (get promptNodes prompt) "output" in
  let* text :=
    call (encode (DataNode.codec (PromptNode.output node)) output) in
  setData (JStr text) ;;
  setPrompt None.

(** The resolve button's [onClick], lines 59-73. [for (const i in
    proc.inputs)] walks the input names in enumeration order. *)
Definition resolve_onClick (data : JSValue) (proc : MetaNodeResolveType)
  : M unit :=
  let formData :=
    fold_left (fun fd i => FormData_append fd i data)
              (Object_keys (ResolveNode.inputs proc)) [] in
  let* req := fetch ("/api/resolver/" +:+ ResolveNode.spec proc) formData in
  let* res := call (json req) in
  setPrompt None ;;
  setData res ;;
  setDataType (DataNode.spec (ResolveNode.output proc)).

(** The example button's [onClick], lines 104-108. *)
Definition example_onClick (node : MetaNodeDataType) : M unit :=
  setPrompt None ;;
  setDataType (DataNode.spec node) ;;
  let* text :=
    call (encode (DataNode.codec node)
                 (default JUndefined (get (DataNode.meta node) "example"))) in
  setData (JStr text).

(** [fontWeight] of a process button, and the span before it. *)
Definition emphasis (inputs : JSObject MetaNodeDataType) (dataType : string)
  : string :=
  if existsb (fun i => String.eqb (DataNode.spec i) dataType)
             (Object_values inputs)
  then "bold" else "normal".

Definition inputs_label (inputs : JSObject MetaNodeDataType) : option string :=
  if (0 <? length (Object_keys inputs))%nat
  then Some (String.concat ", " (List.map DataNode.spec (Object_values inputs)))
  else None.

(** Lines 37-48. *)
Definition prompt_row (dataType : string) (proc : MetaNodePromptType)
  : ProcessRow :=
  {| key := PromptNode.spec proc;
     inputs_span := inputs_label (PromptNode.inputs proc);
     process_button :=
       {| fontWeight := emphasis (PromptNode.inputs proc) dataType;
          onClick := setPrompt (Some (PromptNode.spec proc));
          label := PromptNode.spec proc |};
     output_span := DataNode.spec (PromptNode.output proc) |}.

(** Lines 51-76. *)
Definition resolve_row (data : JSValue) (dataType : string)
  (proc : MetaNodeResolveType) : ProcessRow :=
  {| key := ResolveNode.spec proc;
     inputs_span := inputs_label (ResolveNode.inputs proc);
     process_button :=
       {| fontWeight := emphasis (ResolveNode.inputs proc) dataType;
          onClick := resolve_onClick data proc;
          label := ResolveNode.spec proc |};
     output_span := DataNode.spec (ResolveNode.output proc) |}.

(** Lines 102-109. *)
Definition example_button (node : MetaNodeDataType) : button :=
  {| fontWeight := "normal";
     onClick := example_onClick node;
     label := DataNode.spec node |}.

(** Lines 16-24, the branch taken when [prompt] is truthy. *)
Definition prompt_view (data : JSValue) (prompt : string)
  : M (option ReactNode) :=
  let* node := member (get promptNodes prompt) "prompt" in
  let Prompt := PromptNode.prompt node in
  let* node := member (get promptNodes prompt) "inputs" in
  ret (Some (Element Prompt
    {| inputs :=
         [(ToString (index0 (Object_keys (PromptNode.inputs node))), data)];
       submit := Prompt_submit prompt |})).

(** Lines 25-31, the branch taken otherwise; [dataNodeView] stays
    [undefined] when no data node has the selected id. *)
Definition data_view (data : JSValue) (dataNode : option MetaNodeDataType)
  : M (option ReactNode) :=
  match dataNode with
  | Some dataNode =>
      try_catch
        (let* decoded := call (decode (DataNode.codec dataNode) data) in
         let* rendered := call (DataNode.view dataNode decoded) in
         ret (Some (div [rendered])))
        (fun e =>
           ret (Some (div [Text "Error rendering ";
                           Text (DataNode.spec dataNode);
                           Text ": ";
                           Text (Error_toString e)])))
  | None => ret None
  end.

(** Lines 13-31: what [dataNodeView] is bound to. *)
Definition current_view (data : JSValue) (dataType : string)
  (prompt : option string) : M (option ReactNode) :=
  let dataNode := get dataNodes dataType in
  match prompt with
  | Some p =>
      if truthy prompt then prompt_view data p
      else data_view data dataNode
  | None => data_view data dataNode
  end.

Definition App : M AppView :=
  let* data := useData in
  let* dataType := useDataType in
  let* prompt := usePrompt in
  let* dataNodeView := current_view data dataType prompt in
  let* nodes :=
    mapM (fun spec => member (get dataNodes spec) "meta")
         (Object_keys dataNodes) in
  ret {| Process_prompt :=
           List.map (prompt_row dataType) (Object_values promptNodes);
         Process_resolve :=
           List.map (resolve_row data dataType) (Object_values resolveNodes);
         Data_editor :=
           {| value := data;
              onValueChange := fun value => setData (JStr value) |};
         Examples :=
           List.map example_button
             (List.filter
                (fun node => has_key "example" (DataNode.meta node)) nodes);
         View_select :=
           {| select_value := dataType;
              onChange := fun value => setPrompt None ;; setDataType value;
              options :=
                List.map DataNode.spec (Object_values dataNodes) |};
         View_dataNodeView := dataNodeView |}.

End Page.

(** What the page shows as text: the headings, the process lines, the
    buffer, the example buttons, the options, and the text of the current
    view. A prompt element is shown by its component, not by [App]. *)
Fixpoint text_of (n : ReactNode) : list string :=
  match n with
  | Text s => [s]
  | div children => List.concat (List.map text_of children)
  | Element _ _ => []
  end.

Definition row_text (r : ProcessRow) : list string :=
  match inputs_span r with Some s => [s; " => "] | None => [] end
  ++ [label (process_button r); " => "; output_span r].

Definition visible_text (ui : AppView) : list string :=
  ["Apply Process"]
  ++ List.concat (List.map row_text (Process_prompt ui))
  ++ List.concat (List.map row_text (Process_resolve ui))
  ++ ["Current Data"; ToString (value (Data_editor ui)); "Load Example:"]
  ++ List.map label (Examples ui)
  ++ ["Current View"]
  ++ options (View_select ui)
  ++ match View_dataNodeView ui with Some n => text_of n | None => [] end.

(** [hay.includes(needle)] *)
Fixpoint includes (hay needle : string) : bool :=
  String.prefix needle hay
  || match hay with
     | EmptyString => false
     | String _ hay' => includes hay' needle
     end.

(** The user is told of [e]: some text of the page includes its message. *)
Definition surfaces (e : JSError) (ui : AppView) : bool :=
  existsb (fun t => includes t (message e)) (visible_text ui).

(** The nodes that [Object.keys(o).map(k => o[k])] lists. *)
Definition listed {A} (o : JSObject A) : list A :=
  omap (get o) (Object_keys o).

(** The request the resolve button of [proc] hands to [fetch]. *)
Definition resolve_request (data : JSValue) (proc : MetaNodeResolveType)
  : Request :=
  {| url := "/api/resolver/" +:+ ResolveNode.spec proc;
     method := "POST";
     body := List.map (fun i => (i, ToString data))
                      (Object_keys (ResolveNode.inputs proc)) |}.

(** The state [Prompting(p)]: [prompt] holds a truthy id that the prompt
    registry maps to [p]. *)
Definition Prompting (promptNodes : JSObject MetaNodePromptType)
  (w : World) (p : MetaNodePromptType) : Prop :=
  exists id, prompt (hooks w) = Some id /\ id <> ""
             /\ get promptNodes id = Some p.

(** ** The class [MetaNode] *)

Module MetaNode.

Definition loc : Type := positive.

(** The values a builder handles: strings ([spec], [kind]), references to
    objects ([meta], a codec, a node) and functions, known by name. *)
Inductive Val : Type :=
| VUndefined
| VStr (s : string)
| VRef (l : loc)
| VFun (f : string).

Record Obj : Type := {
  class : string;
  props : gmap string Val
}.

Abbreviation Heap := (gmap loc Obj).

(** The own properties of a string: its characters under their indices. *)
Fixpoint string_props (i : nat) (s : string) : gmap string Val :=
  match s with
  | EmptyString => ∅
  | String c s' =>
      <[NilZero.string_of_uint (Nat.to_uint i) := VStr (String c "")]>
        (string_props (S i) s')
  end.

(** What [{ ...v }] copies: the own properties of [v]. *)
Definition own_props (h : Heap) (v : Val) : gmap string Val :=
  match v with
  | VRef l => match h !! l with Some o => props o | None => ∅ end
  | VStr s => string_props 0 s
  | VUndefined | VFun _ => ∅
  end.

(** [this.t] *)
Definition get_t (h : Heap) (this : loc) : Val :=
  match h !! this with
  | Some o => default VUndefined (props o !! "t")
  | None => VUndefined
  end.

(** An object literal: a fresh object with the given properties. *)
Definition new_object (p : gmap string Val) (h : Heap) : loc * Heap :=
  let l := fresh (dom h) in
  (l, <[l := {| class := "Object"; props := p |}]> h).

(** [new MetaNode(t)] *)
Definition new_MetaNode (t : Val) (h : Heap) : loc * Heap :=
  let l := fresh (dom h) in
  (l, <[l := {| class := "MetaNode"; props := {["t" := t]} |}]> h).

(** [new MetaNode({ ...this.t, attr })] *)
Definition with_attr (attr : string) (this : loc) (a : Val) (h : Heap)
  : loc * Heap :=
  let '(o, h1) := new_object (<[attr := a]> (own_props h (get_t h this))) h in
  new_MetaNode (VRef o) h1.

Definition createData (spec : string) (h : Heap) : loc * Heap :=
  let '(o, h1) := new_object {["spec" := VStr spec; "kind" := VStr "data"]} h in
  new_MetaNode (VRef o) h1.

Definition meta (this : loc) (meta : Val) (h : Heap) : loc * Heap :=
  with_attr "meta" this meta h.

(** The default value of the parameter is built when the argument is
    [undefined]. *)
Definition codec (this : loc) (codec : Val) (h : Heap) : loc * Heap :=
  match codec with
  | VUndefined =>
      let '(d, h0) :=
        new_object {["encode" := VFun "JSON.stringify";
                     "decode" := VFun "JSON.parse"]} h in
      with_attr "codec" this (VRef d) h0
  | _ => with_attr "codec" this codec h
  end.

Definition view (this : loc) (view : Val) (h : Heap) : loc * Heap :=
  with_attr "view" this view h.

Definition createProcess (spec : string) (h : Heap) : loc * Heap :=
  let '(o, h1) :=
    new_object {["spec" := VStr spec; "kind" := VStr "process"]} h in
  new_MetaNode (VRef o) h1.

Definition inputs (this : loc) (inputs : Val) (h : Heap) : loc * Heap :=
  match inputs with
  | VUndefined =>
      let '(d, h0) := new_object ∅ h in
      with_attr "inputs" this (VRef d) h0
  | _ => with_attr "inputs" this inputs h
  end.

Definition output (this : loc) (output : Val) (h : Heap) : loc * Heap :=
  with_attr "output" this output h.

Definition prompt (this : loc) (prompt : Val) (h : Heap) : loc * Heap :=
  with_attr "prompt" this prompt h.

Definition resolve (this : loc) (resolve : Val) (h : Heap) : loc * Heap :=
  with_attr "resolve" this resolve h.

Definition build (this : loc) (h : Heap) : Val := get_t h this.

(** The seven attribute-setting methods. *)
Inductive Step : Type :=
| Meta | Codec | View | Inputs | Output | Prompt | Resolve.

Definition attribute (s : Step) : string :=
  match s with
  | Meta => "meta" | Codec => "codec" | View => "view"
  | Inputs => "inputs" | Output => "output"
  | Prompt => "prompt" | Resolve => "resolve"
  end.

Definition step (s : Step) : loc -> Val -> Heap -> loc * Heap :=
  match s with
  | Meta => meta | Codec => codec | View => view
  | Inputs => inputs | Output => output
  | Prompt => prompt | Resolve => resolve
  end.

(** The attributes a builder holds: the own properties of its [t]. *)
Definition attributes (h : Heap) (b : loc) : gmap string Val :=
  own_props h (get_t h b).

(** [b] is a builder of the heap: it is allocated, and so is the object
    its [t] refers to. *)
Definition allocated (h : Heap) (b : loc) : Prop :=
  is_Some (h !! b) /\ forall l, get_t h b = VRef l -> is_Some (h !! l).

End MetaNode.

(** A computation that neither reads nor writes the world. *)
Definition constant {A} (c : M A) : Prop :=
  exists r, forall w, c w = (r, w).

(** ** A small registry *)

Module Sample.

Definition SyntaxError (msg : string) : JSError :=
  {| name := "SyntaxError"; message := msg |}.

(** Decimal text to an integer and back. *)
Definition Number_codec : Codec :=
  {| encode := fun v =>
       match v with
       | JNum n => Normal (ToString v)
       | _ => Throw (TypeError "not a number")
       end;
     decode := fun t =>
       match t with
       | JStr s =>
           match NilZero.int_of_string s with
           | Some d => Normal (JNum (Z.of_int d))
           | None => Throw (SyntaxError "Unexpected token")
           end
       | _ => Throw (SyntaxError "Unexpected token")
       end |}.

Definition Number : MetaNodeDataType :=
  {| DataNode.spec := "Number";
     DataNode.meta := [("example", JNum 21)];
     DataNode.codec := Number_codec;
     DataNode.view := fun v => Normal (Text (ToString v)) |}.

(** Free text, with no example. *)
Definition Note : MetaNodeDataType :=
  {| DataNode.spec := "Note";
     DataNode.meta := [("label", JStr "A note")];
     DataNode.codec :=
       {| encode := fun v => Normal (ToString v);
          decode := fun t => Normal t |};
     DataNode.view := fun v => Normal (Text (ToString v)) |}.

Definition dataNodes : JSObject MetaNodeDataType :=
  [("Number", Number); ("Note", Note)].

Definition double : MetaNodeResolveType :=
  {| ResolveNode.spec := "double";
     ResolveNode.meta := [];
     ResolveNode.inputs := [("input", Number)];
     ResolveNode.output := Number;
     ResolveNode.resolve := fun _ => Normal JUndefined |}.

Definition resolveNodes : JSObject MetaNodeResolveType :=
  [("double", double)].

(** A prompt with two declared inputs and a source prompt with none. *)
Definition annotate : MetaNodePromptType :=
  {| PromptNode.spec := "annotate";
     PromptNode.meta := [];
     PromptNode.inputs := [("value", Number); ("note", Note)];
     PromptNode.output := Number;
     PromptNode.prompt := fun props => div [Text "annotate"] |}.

Definition enter : MetaNodePromptType :=
  {| PromptNode.spec := "enter";
     PromptNode.meta := [];
     PromptNode.inputs := [];
     PromptNode.output := Number;
     PromptNode.prompt := fun props => div [Text "enter"] |}.

Definition promptNodes : JSObject MetaNodePromptType :=
  [("annotate", annotate); ("enter", enter)].

(** A transport that answers every request with the text 42, and one
    whose every request is rejected. *)
Definition answering : Request -> Completion Response :=
  fun _ => Normal {| json := Normal (JStr "42") |}.

Definition Failed_to_fetch : JSError := TypeError "Failed to fetch".

Definition rejecting : Request -> Completion Response :=
  fun _ => Throw Failed_to_fetch.

Definition viewing (text : string) : World :=
  {| hooks := {| data := JStr text; dataType := "Number"; prompt := None |};
     requests := [] |}.

Definition prompting (id text : string) : World :=
  {| hooks := {| data := JStr text; dataType := "Number";
                 prompt := Some id |};
     requests := [] |}.

End Sample.

(** ** Nodes at the edges *)

Module Edge.

(** A data node whose view throws on every value. *)
Definition Fragile : MetaNodeDataType :=
  {| DataNode.spec := "Fragile";
     DataNode.meta := [];
     DataNode.codec :=
       {| encode := fun v => Normal (ToString v);
          decode := fun t => Normal t |};
     DataNode.view := fun _ => Throw (TypeError "cannot render") |}.

(** A number node whose example is not a number. *)
Definition Draft : MetaNodeDataType :=
  {| DataNode.spec := "Draft";
     DataNode.meta := [("example", JStr "soon")];
     DataNode.codec := Sample.Number_codec;
     DataNode.view := fun v => Normal (Text (ToString v)) |}.

Definition dataNodes : JSObject MetaNodeDataType :=
  [("Number", Sample.Number); ("Fragile", Fragile); ("Draft", Draft)].

(** A prompt whose id is the empty string. *)
Definition blank : MetaNodePromptType :=
  {| PromptNode.spec := "";
     PromptNode.meta := [];
     PromptNode.inputs := [("value", Sample.Number)];
     PromptNode.output := Sample.Number;
     PromptNode.prompt := fun props => div [Text "blank"] |}.

Definition promptNodes : JSObject MetaNodePromptType :=
  [("", blank); ("annotate", Sample.annotate)].

(** A resolve operation that declares no input. *)
Definition answer : MetaNodeResolveType :=
  {| ResolveNode.spec := "answer";
     ResolveNode.meta := [];
     ResolveNode.inputs := [];
     ResolveNode.output := Sample.Number;
     ResolveNode.resolve := fun _ => Normal (JNum 42) |}.

Definition resolveNodes : JSObject MetaNodeResolveType :=
  [("double", Sample.double); ("answer", answer)].

(** A transport that answers every request with the number 42. *)
Definition numeric : Request -> Completion Response :=
  fun _ => Normal {| json := Normal (JNum 42) |}.

Definition selecting (type : string) (buffer : JSValue) : World :=
  {| hooks := {| data := buffer; dataType := type; prompt := None |};
     requests := [] |}.

End Edge.

(** * Properties *)

(** ** Objects and text *)

Lemma get_own_key {A} (o : JSObject A) (k : string) :
  In k (Object_keys o) -> is_Some (get o k).
Proof.
  induction o as [|[k' a] o IH]; simpl; [tauto|].
  intros [->|Hin].
  - rewrite String.eqb_refl. eauto.
  - destruct (String.eqb k' k); eauto.
Qed.

Lemma prefix_refl (s : string) : String.prefix s s = true.
Proof.
  induction s as [|c s IH]; simpl; [reflexivity|].
  destruct (ascii_dec c c); [exact IH|congruence].
Qed.

Lemma prefix_empty (s : string) : String.prefix "" s = true.
Proof. destruct s; reflexivity. Qed.

Lemma includes_suffix (pre s : string) : includes (pre +:+ s) s = true.
Proof.
  induction pre as [|c pre IH]; simpl.
  - destruct s; simpl; [reflexivity|].
    destruct (ascii_dec a a); [|congruence].
    rewrite prefix_refl. reflexivity.
  - rewrite IH. apply orb_true_r.
Qed.

Lemma append_assoc (a b c : string) : (a +:+ b) +:+ c = a +:+ b +:+ c.
Proof.
  induction a as [|x a IH]; [reflexivity|].
  change (String x ((a +:+ b) +:+ c) = String x (a +:+ b +:+ c)).
  f_equal. exact IH.
Qed.

Lemma includes_message (e : JSError) :
  includes (Error_toString e) (message e) = true.
Proof.
  unfold Error_toString.
  destruct (String.eqb (name e) "") eqn:Hn.
  - apply (includes_suffix "").
  - destruct (String.eqb (message e) "") eqn:Hm.
    + apply String.eqb_eq in Hm. rewrite Hm.
      destruct (name e); reflexivity.
    + rewrite <- append_assoc. apply includes_suffix.
Qed.

Lemma surfaces_view (e : JSError) (ui : AppView) (n : ReactNode) :
  View_dataNodeView ui = Some n ->
  existsb (fun t => includes t (message e)) (text_of n) = true ->
  surfaces e ui = true.
Proof.
  intros Hv Hn. unfold surfaces, visible_text.
  rewrite Hv, !existsb_app, Hn, !orb_true_r. reflexivity.
Qed.

Lemma fold_append (d : JSValue) (ks : list string) (fd : FormData) :
  fold_left (fun fd i => FormData_append fd i d) ks fd
  = fd ++ List.map (fun i => (i, ToString d)) ks.
Proof.
  revert fd. induction ks as [|k ks IH]; intros fd; simpl.
  - symmetry. apply app_nil_r.
  - rewrite IH. unfold FormData_append. rewrite <- app_assoc. reflexivity.
Qed.

(** ** Computations that leave the world alone *)

Lemma constant_ret {A} (a : A) : constant (ret a).
Proof. exists (Normal a). reflexivity. Qed.

Lemma constant_throw {A} (e : JSError) : constant (@throw A e).
Proof. exists (Throw e). reflexivity. Qed.

Lemma constant_call {A} (c : Completion A) : constant (call c).
Proof. exists c. reflexivity. Qed.

Lemma constant_member {A} (o : option A) (f : string) :
  constant (member o f).
Proof. destruct o; [apply constant_ret|apply constant_throw]. Qed.

Lemma constant_bind {A B} (c : M A) (k : A -> M B) :
  constant c -> (forall a, constant (k a)) -> constant (bind c k).
Proof.
  intros [[a|e] Hr] Hk.
  - destruct (Hk a) as [r' Hr']. exists r'. intros w.
    unfold bind. rewrite Hr. apply Hr'.
  - exists (Throw e). intros w. unfold bind. rewrite Hr. reflexivity.
Qed.

Lemma constant_try_catch {A} (c : M A) (k : JSError -> M A) :
  constant c -> (forall e, constant (k e)) -> constant (try_catch c k).
Proof.
  intros [[a|e] Hr] Hk.
  - exists (Normal a). intros w. unfold try_catch. rewrite Hr. reflexivity.
  - destruct (Hk e) as [r' Hr']. exists r'. intros w.
    unfold try_catch. rewrite Hr. apply Hr'.
Qed.

Create HintDb constant.
#[local] Hint Resolve constant_ret constant_throw constant_call
  constant_member : constant.

Ltac constant_steps :=
  repeat first
    [ apply constant_bind; [|intros ?]
    | apply constant_try_catch; [|intros ?]
    | solve [auto with constant] ].

Lemma mapM_member_listed {A} (o : JSObject A) (f : string) (w : World) :
  mapM (fun k => member (get o k) f) (Object_keys o) w
  = (Normal (listed o), w).
Proof.
  unfold listed.
  assert (H : Forall (fun k => is_Some (get o k)) (Object_keys o)).
  { apply List.Forall_forall. intros k Hk. now apply get_own_key. }
  induction H as [|k ks [a Ha] _ IH]; simpl; [reflexivity|].
  unfold bind at 1. rewrite Ha. simpl.
  unfold bind at 1. rewrite IH. reflexivity.
Qed.

(** ** Rendering *)

Section PageFacts.

Variable dataNodes : JSObject MetaNodeDataType.
Variable resolveNodes : JSObject MetaNodeResolveType.
Variable promptNodes : JSObject MetaNodePromptType.
Variable network : Request -> Completion Response.

Local Abbreviation App' := (App dataNodes resolveNodes promptNodes network).
Local Abbreviation current_view' := (current_view dataNodes promptNodes).

Lemma constant_data_view (d : JSValue) (n : option MetaNodeDataType) :
  constant (data_view d n).
Proof. destruct n; unfold data_view; constant_steps. Qed.

Lemma constant_prompt_view (d : JSValue) (p : string) :
  constant (prompt_view promptNodes d p).
Proof. unfold prompt_view; constant_steps. Qed.

Lemma current_view_viewing (d : JSValue) (t : string) (p : option string) :
  truthy p = false ->
  current_view' d t p = data_view d (get dataNodes t).
Proof. intros H. unfold current_view. rewrite H. destruct p; reflexivity. Qed.

Lemma current_view_prompting (d : JSValue) (t id : string) :
  id <> "" ->
  current_view' d t (Some id) = prompt_view promptNodes d id.
Proof.
  intros H. unfold current_view, truthy.
  destruct (String.eqb id "") eqn:E; [|reflexivity].
  apply String.eqb_eq in E. contradiction.
Qed.

Lemma constant_current_view (d : JSValue) (t : string) (p : option string) :
  constant (current_view' d t p).
Proof.
  unfold current_view.
  destruct p; [destruct (truthy _)|];
    auto using constant_data_view, constant_prompt_view.
Qed.

(** [App] changes nothing, and what it returns is settled by the hooks
    and by what [dataNodeView] was bound to. *)
Lemma App_run (w : World) :
  exists r,
    (forall w', current_view' (data (hooks w)) (dataType (hooks w))
                              (prompt (hooks w)) w' = (r, w'))
    /\ App' w =
       (match r with
        | Normal dataNodeView =>
            Normal
              {| Process_prompt :=
                   List.map (prompt_row (dataType (hooks w)))
                            (Object_values promptNodes);
                 Process_resolve :=
                   List.map (resolve_row network (data (hooks w))
                                         (dataType (hooks w)))
                            (Object_values resolveNodes);
                 Data_editor :=
                   {| value := data (hooks w);
                      onValueChange := fun value => setData (JStr value) |};
                 Examples :=
                   List.map example_button
                     (List.filter
                        (fun node => has_key "example" (DataNode.meta node))
                        (listed dataNodes));
                 View_select :=
                   {| select_value := dataType (hooks w);
                      onChange :=
                        fun value => setPrompt None ;; setDataType value;
                      options :=
                        List.map DataNode.spec (Object_values dataNodes) |};
                 View_dataNodeView := dataNodeView |}
        | Throw e => Throw e
        end, w).
Proof.
  destruct (constant_current_view (data (hooks w)) (dataType (hooks w))
                                  (prompt (hooks w))) as [r Hr].
  exists r. split; [exact Hr|].
  unfold App, useData, useDataType, usePrompt.
  unfold bind at 1 2 3 4. rewrite Hr.
  destruct r as [v|e]; [|reflexivity].
  unfold bind. rewrite mapM_member_listed. reflexivity.
Qed.

Lemma data_view_decode_error (d : JSValue) (node : MetaNodeDataType)
  (e : JSError) (w : World) :
  decode (DataNode.codec node) d = Throw e ->
  data_view d (Some node) w
  = (Normal (Some (div [Text "Error rendering "; Text (DataNode.spec node);
                        Text ": "; Text (Error_toString e)])), w).
Proof.
  intros H. unfold data_view, try_catch, bind, call. rewrite H. reflexivity.
Qed.

Lemma prompt_view_registered (d : JSValue) (id : string)
  (p : MetaNodePromptType) (w : World) :
  get promptNodes id = Some p ->
  prompt_view promptNodes d id w
  = (Normal (Some (Element (PromptNode.prompt p)
       {| inputs :=
            [(ToString (index0 (Object_keys (PromptNode.inputs p))), d)];
          submit := Prompt_submit promptNodes id |})), w).
Proof. intros H. unfold prompt_view, bind. rewrite H. reflexivity. Qed.

(** C7: in the viewing state, when the selected data node's [decode]
    throws on the buffer, [App] returns normally and leaves the hooks as
    they were; the current view is the error line, which names the node's
    id and carries [e.toString()]; that text includes the error's
    message, so the page tells the user of the error. *)
Theorem decode_failure_renders_error (w : World) (node : MetaNodeDataType)
  (e : JSError) :
  truthy (prompt (hooks w)) = false ->
  get dataNodes (dataType (hooks w)) = Some node ->
  decode (DataNode.codec node) (data (hooks w)) = Throw e ->
  exists ui,
    App' w = (Normal ui, w)
    /\ View_dataNodeView ui
       = Some (div [Text "Error rendering "; Text (DataNode.spec node);
                    Text ": "; Text (Error_toString e)])
    /\ includes (Error_toString e) (message e) = true
    /\ surfaces e ui = true.
Proof.
  intros Hp Hn Hd.
  destruct (App_run w) as [r [Hr HApp]].
  specialize (Hr w).
  rewrite (current_view_viewing _ _ _ Hp), Hn in Hr.
  rewrite (data_view_decode_error _ _ _ _ Hd) in Hr.
  injection Hr as <-.
  eexists. split; [exact HApp|].
  split; [reflexivity|]. split; [apply includes_message|].
  eapply surfaces_view; [reflexivity|]. simpl.
  rewrite includes_message, !orb_true_r. reflexivity.
Qed.

Lemma App_hooks (w1 w2 : World) :
  hooks w1 = hooks w2 -> fst (App' w1) = fst (App' w2).
Proof.
  intros H.
  destruct (App_run w1) as [r1 [Hr1 ->]].
  destruct (App_run w2) as [r2 [Hr2 ->]].
  specialize (Hr1 w1). rewrite H, Hr2 in Hr1.
  injection Hr1 as ->. simpl. rewrite H. reflexivity.
Qed.

Lemma App_prompting (w : World) (p : MetaNodePromptType) :
  Prompting promptNodes w p ->
  exists ui id,
    App' w = (Normal ui, w)
    /\ prompt (hooks w) = Some id
    /\ get promptNodes id = Some p
    /\ Data_editor ui
       = {| value := data (hooks w);
            onValueChange := fun value => setData (JStr value) |}
    /\ View_select ui
       = {| select_value := dataType (hooks w);
            onChange := fun value => setPrompt None ;; setDataType value;
            options := List.map DataNode.spec (Object_values dataNodes) |}
    /\ View_dataNodeView ui
       = Some (Element (PromptNode.prompt p)
           {| inputs :=
                [(ToString (index0 (Object_keys (PromptNode.inputs p))),
                  data (hooks w))];
              submit := Prompt_submit promptNodes id |}).
Proof.
  intros (id & Hid & Hne & Hget).
  destruct (App_run w) as [r [Hr HApp]].
  specialize (Hr w). rewrite Hid in Hr.
  rewrite (current_view_prompting _ _ _ Hne) in Hr.
  rewrite (prompt_view_registered _ _ _ _ Hget) in Hr.
  injection Hr as <-.
  eexists. exists id. split; [exact HApp|].
  repeat split; assumption || reflexivity.
Qed.

Lemma lookup_map {A B} (f : A -> B) (l : list A) (i : nat) :
  List.map f l !! i = f <$> (l !! i).
Proof.
  revert i. induction l as [|a l IH]; intros [|i]; simpl; auto.
Qed.

Lemma App_resolve_row (w : World) (ui : AppView) (i : nat)
  (proc : MetaNodeResolveType) :
  fst (App' w) = Normal ui ->
  Object_values resolveNodes !! i = Some proc ->
  Process_resolve ui !! i
  = Some (resolve_row network (data (hooks w)) (dataType (hooks w)) proc).
Proof.
  intros HApp Hi.
  destruct (App_run w) as [[v|e] [_ Hrun]]; rewrite Hrun in HApp;
    simpl in HApp; [|discriminate].
  injection HApp as <-. simpl.
  rewrite lookup_map, Hi. reflexivity.
Qed.

(** ** The handlers *)

Lemma resolve_onClick_run (d : JSValue) (proc : MetaNodeResolveType)
  (w : World) :
  resolve_onClick network d proc w
  = let w' := {| hooks := hooks w;
                 requests := requests w ++ [resolve_request d proc] |} in
    match network (resolve_request d proc) with
    | Throw e => (Throw e, w')
    | Normal resp =>
        match json resp with
        | Throw e => (Throw e, w')
        | Normal res =>
            (Normal tt,
             {| hooks := {| data := res;
                            dataType :=
                              DataNode.spec (ResolveNode.output proc);
                            prompt := None |};
                requests := requests w ++ [resolve_request d proc] |})
        end
    end.
Proof.
  unfold resolve_onClick, fetch. rewrite fold_append. simpl.
  fold (resolve_request d proc).
  unfold bind at 1.
  destruct (network (resolve_request d proc)) as [resp|e]; [|reflexivity].
  unfold bind at 1, call.
  destruct (json resp) as [res|e]; reflexivity.
Qed.

Lemma Prompt_submit_run (id : string) (p : MetaNodePromptType)
  (v : JSValue) (text : string) (w : World) :
  get promptNodes id = Some p ->
  encode (DataNode.codec (PromptNode.output p)) v = Normal text ->
  Prompt_submit promptNodes id v w
  = (Normal tt,
     {| hooks := {| data := JStr text;
                    dataType := DataNode.spec (PromptNode.output p);
                    prompt := None |};
        requests := requests w |}).
Proof.
  intros Hget Henc. unfold Prompt_submit, bind, call.
  rewrite Hget. simpl. rewrite Henc. reflexivity.
Qed.

Lemma example_onClick_run (node : MetaNodeDataType) (example : JSValue)
  (text : string) (w : World) :
  get (DataNode.meta node) "example" = Some example ->
  encode (DataNode.codec node) example = Normal text ->
  example_onClick node w
  = (Normal tt,
     {| hooks := {| data := JStr text;
                    dataType := DataNode.spec node;
                    prompt := None |};
        requests := requests w |}).
Proof.
  intros Hget Henc. unfold example_onClick, bind, call.
  rewrite Hget. simpl. rewrite Henc. reflexivity.
Qed.

(** ** Resolve operations *)

(** C3: with the text [s] in the buffer, the button of the resolve
    operation [proc] hands [fetch] one request, a POST to
    [/api/resolver/<proc.spec>] whose form has one field per declared
    input name, in order, each holding [s] itself. *)
Theorem resolve_sends_raw_text (w : World) (ui : AppView) (i : nat)
  (proc : MetaNodeResolveType) (s : string) :
  fst (App' w) = Normal ui ->
  Object_values resolveNodes !! i = Some proc ->
  data (hooks w) = JStr s ->
  exists row,
    Process_resolve ui !! i = Some row
    /\ key row = ResolveNode.spec proc
    /\ requests (snd (onClick (process_button row) w))
       = requests w
         ++ [{| url := "/api/resolver/" +:+ ResolveNode.spec proc;
                method := "POST";
                body := List.map (fun input => (input, s))
                          (Object_keys (ResolveNode.inputs proc)) |}].
Proof.
  intros HApp Hi Hs.
  eexists. split; [exact (App_resolve_row _ _ _ _ HApp Hi)|].
  split; [reflexivity|]. simpl.
  rewrite resolve_onClick_run, Hs. unfold resolve_request. simpl.
  destruct (network _) as [resp|e]; [destruct (json resp)|]; reflexivity.
Qed.

(** C4: when the transport answers and the body decodes to [res], the
    button of the resolve operation [proc] completes normally and leaves
    the hooks at: buffer [res] as received, selected type the id of
    [proc]'s output, no active prompt. *)
Theorem resolve_success_adopts_response (w : World) (ui : AppView) (i : nat)
  (proc : MetaNodeResolveType) (resp : Response) (res : JSValue) :
  fst (App' w) = Normal ui ->
  Object_values resolveNodes !! i = Some proc ->
  network (resolve_request (data (hooks w)) proc) = Normal resp ->
  json resp = Normal res ->
  exists row,
    Process_resolve ui !! i = Some row
    /\ key row = ResolveNode.spec proc
    /\ onClick (process_button row) w
       = (Normal tt,
          {| hooks := {| data := res;
                         dataType := DataNode.spec (ResolveNode.output proc);
                         prompt := None |};
             requests :=
               requests w ++ [resolve_request (data (hooks w)) proc] |}).
Proof.
  intros HApp Hi Hnet Hjson.
  eexists. split; [exact (App_resolve_row _ _ _ _ HApp Hi)|].
  split; [reflexivity|]. simpl.
  rewrite resolve_onClick_run, Hnet, Hjson. reflexivity.
Qed.

(** C1, as amended: when [fetch] rejects, or the body does not decode,
    the button of the resolve operation [proc] completes abruptly with
    the transport's error, the hooks keep the values they had, and the
    page rendered afterwards is the page rendered before. *)
Theorem resolve_failure_keeps_state (w : World) (ui : AppView) (i : nat)
  (proc : MetaNodeResolveType) (e : JSError) :
  fst (App' w) = Normal ui ->
  Object_values resolveNodes !! i = Some proc ->
  (network (resolve_request (data (hooks w)) proc) = Throw e
   \/ exists resp,
        network (resolve_request (data (hooks w)) proc) = Normal resp
        /\ json resp = Throw e) ->
  exists row,
    Process_resolve ui !! i = Some row
    /\ key row = ResolveNode.spec proc
    /\ fst (onClick (process_button row) w) = Throw e
    /\ hooks (snd (onClick (process_button row) w)) = hooks w
    /\ fst (App' (snd (onClick (process_button row) w))) = Normal ui.
Proof.
  intros HApp Hi Hfail.
  eexists. split; [exact (App_resolve_row _ _ _ _ HApp Hi)|].
  split; [reflexivity|]. simpl.
  rewrite resolve_onClick_run.
  destruct Hfail as [Hn|(resp & Hn & Hj)]; rewrite Hn; [|rewrite Hj];
    simpl; repeat split; rewrite <- HApp; apply App_hooks; reflexivity.
Qed.

(** ** Prompt operations *)

(** C2, as amended: while a prompt is active, the current view is the
    active prompt's element and nothing else; the editor and the type
    selector are rendered all the same: an edit replaces the buffer and
    keeps the prompt, a selection sets the type and clears the prompt. *)
Theorem prompting_view_and_controls (w : World) (p : MetaNodePromptType) :
  Prompting promptNodes w p ->
  exists ui props,
    App' w = (Normal ui, w)
    /\ View_dataNodeView ui = Some (Element (PromptNode.prompt p) props)
    /\ (forall text w',
          onValueChange (Data_editor ui) text w'
          = (Normal tt,
             {| hooks := {| data := JStr text;
                            dataType := dataType (hooks w');
                            prompt := prompt (hooks w') |};
                requests := requests w' |}))
    /\ (forall id w',
          onChange (View_select ui) id w'
          = (Normal tt,
             {| hooks := {| data := data (hooks w');
                            dataType := id;
                            prompt := None |};
                requests := requests w' |})).
Proof.
  intros H.
  destruct (App_prompting w p H)
    as (ui & id & HApp & _ & _ & Hed & Hsel & Hview).
  exists ui. eexists. split; [exact HApp|]. split; [exact Hview|].
  rewrite Hed, Hsel. split; reflexivity.
Qed.

(** C5: while the prompt operation [p] is active, its element's [submit],
    called with a value that the codec of [p]'s output encodes to [text],
    leaves the hooks at: selected type the id of [p]'s output, buffer
    [text], no active prompt. *)
Theorem submit_moves_to_output (w : World) (p : MetaNodePromptType) :
  Prompting promptNodes w p ->
  exists ui props,
    App' w = (Normal ui, w)
    /\ View_dataNodeView ui = Some (Element (PromptNode.prompt p) props)
    /\ forall v text w',
         encode (DataNode.codec (PromptNode.output p)) v = Normal text ->
         submit props v w'
         = (Normal tt,
            {| hooks := {| data := JStr text;
                           dataType := DataNode.spec (PromptNode.output p);
                           prompt := None |};
               requests := requests w' |}).
Proof.
  intros H.
  destruct (App_prompting w p H)
    as (ui & id & HApp & _ & Hget & _ & _ & Hview).
  exists ui. eexists. split; [exact HApp|]. split; [exact Hview|].
  intros v text w' Henc. simpl.
  exact (Prompt_submit_run _ _ _ _ _ Hget Henc).
Qed.

(** C6: while a prompt operation [p] with at least one declared input is
    active, the [inputs] prop of its element has exactly one entry: the
    first declared input name, holding the buffer as it is. *)
Theorem prompt_receives_first_input (w : World) (p : MetaNodePromptType)
  (first : string) (node : MetaNodeDataType)
  (others : JSObject MetaNodeDataType) :
  Prompting promptNodes w p ->
  PromptNode.inputs p = (first, node) :: others ->
  exists ui props,
    App' w = (Normal ui, w)
    /\ View_dataNodeView ui = Some (Element (PromptNode.prompt p) props)
    /\ inputs props = [(first, data (hooks w))].
Proof.
  intros H Hin.
  destruct (App_prompting w p H)
    as (ui & id & HApp & _ & _ & _ & _ & Hview).
  exists ui. eexists. split; [exact HApp|]. split; [exact Hview|].
  simpl. rewrite Hin. reflexivity.
Qed.

(** C10: while a prompt operation [p] that declares no input is active,
    the [inputs] prop of its element has the single key ["undefined"],
    holding the buffer as it is. *)
Theorem prompt_without_inputs_receives_undefined_key (w : World)
  (p : MetaNodePromptType) :
  Prompting promptNodes w p ->
  PromptNode.inputs p = [] ->
  exists ui props,
    App' w = (Normal ui, w)
    /\ View_dataNodeView ui = Some (Element (PromptNode.prompt p) props)
    /\ inputs props = [("undefined", data (hooks w))].
Proof.
  intros H Hin.
  destruct (App_prompting w p H)
    as (ui & id & HApp & _ & _ & _ & _ & Hview).
  exists ui. eexists. split; [exact HApp|]. split; [exact Hview|].
  simpl. rewrite Hin. reflexivity.
Qed.

(** ** Examples *)

(** C8: the example buttons are those of the listed data nodes whose
    [meta] has the key [example], in order, and no others; the button of
    such a node, when the node's codec encodes the example to [text],
    leaves the hooks at: no active prompt, selected type the node's id,
    buffer [text]. *)
Theorem load_example (w : World) (ui : AppView) :
  fst (App' w) = Normal ui ->
  let offered :=
    List.filter (fun node => has_key "example" (DataNode.meta node))
                (listed dataNodes) in
  List.map label (Examples ui) = List.map DataNode.spec offered
  /\ forall i node,
       offered !! i = Some node ->
       exists b,
         Examples ui !! i = Some b
         /\ forall example text w',
              get (DataNode.meta node) "example" = Some example ->
              encode (DataNode.codec node) example = Normal text ->
              onClick b w'
              = (Normal tt,
                 {| hooks := {| data := JStr text;
                                dataType := DataNode.spec node;
                                prompt := None |};
                    requests := requests w' |}).
Proof.
  intros HApp offered.
  destruct (App_run w) as [[v|e] [_ Hrun]]; rewrite Hrun in HApp;
    simpl in HApp; [|discriminate].
  injection HApp as <-. simpl. fold offered. split.
  - rewrite List.map_map. reflexivity.
  - intros i node Hi. eexists. split.
    + rewrite lookup_map, Hi. reflexivity.
    + intros example text w' Hget Henc. simpl.
      exact (example_onClick_run _ _ _ _ Hget Henc).
Qed.

End PageFacts.

(** ** The builder *)

Section BuilderFacts.

Import MetaNode.

Implicit Types (h : Heap) (b this : loc) (a v : Val).

Lemma new_object_fresh (p : gmap string Val) h :
  h !! (new_object p h).1 = None.
Proof. apply not_elem_of_dom, is_fresh. Qed.

Lemma new_MetaNode_fresh v h : h !! (new_MetaNode v h).1 = None.
Proof. apply not_elem_of_dom, is_fresh. Qed.

Lemma new_object_extends (p : gmap string Val) h : h ⊆ (new_object p h).2.
Proof. apply insert_subseteq, (new_object_fresh p h). Qed.

Lemma new_MetaNode_extends v h : h ⊆ (new_MetaNode v h).2.
Proof. apply insert_subseteq, (new_MetaNode_fresh v h). Qed.

(** A larger heap shows an allocated builder as the smaller one did. *)
Lemma attributes_extends h h' b :
  h ⊆ h' -> allocated h b ->
  allocated h' b /\ attributes h' b = attributes h b.
Proof.
  intros Hsub [[o Ho] Ht].
  assert (Ho' : h' !! b = Some o) by exact (lookup_weaken _ _ _ _ Ho Hsub).
  assert (Hget : get_t h' b = get_t h b).
  { unfold get_t. rewrite Ho, Ho'. reflexivity. }
  split.
  - split; [eauto|]. intros l Hl. rewrite Hget in Hl.
    destruct (Ht l Hl) as [x Hx]. exists x.
    exact (lookup_weaken _ _ _ _ Hx Hsub).
  - unfold attributes. rewrite Hget.
    destruct (get_t h b) as [| |l|] eqn:E; try reflexivity.
    destruct (Ht l eq_refl) as [x Hx]. simpl.
    rewrite Hx, (lookup_weaken _ _ _ _ Hx Hsub). reflexivity.
Qed.

Lemma with_attr_spec (attr : string) this a h :
  let b := (with_attr attr this a h).1 in
  let h' := (with_attr attr this a h).2 in
  h !! b = None
  /\ h ⊆ h'
  /\ allocated h' b
  /\ attributes h' b = <[attr := a]> (attributes h this).
Proof.
  unfold with_attr.
  set (p := <[attr := a]> (own_props h (get_t h this))).
  destruct (new_object p h) as [o h1] eqn:E1.
  assert (Ho : h !! o = None).
  { replace o with (new_object p h).1 by (rewrite E1; reflexivity).
    apply new_object_fresh. }
  assert (Hh1 : h1 = <[o := {| class := "Object"; props := p |}]> h).
  { unfold new_object in E1. congruence. }
  simpl. set (b := fresh (dom h1)).
  assert (Hb : h1 !! b = None) by apply not_elem_of_dom, is_fresh.
  assert (Hne : o <> b).
  { intros Heq. rewrite Hh1, <- Heq, lookup_insert_eq in Hb. discriminate. }
  assert (Hsub1 : h ⊆ h1) by (rewrite Hh1; apply insert_subseteq, Ho).
  assert (Hsub2 : h1 ⊆ <[b := {| class := "MetaNode";
                                 props := {["t" := VRef o]} |}]> h1)
    by apply insert_subseteq, Hb.
  assert (Hgo : (<[b := {| class := "MetaNode";
                           props := {["t" := VRef o]} |}]> h1) !! o
                = Some {| class := "Object"; props := p |}).
  { rewrite lookup_insert_ne by congruence.
    rewrite Hh1. apply lookup_insert_eq. }
  assert (Hgt : get_t (<[b := {| class := "MetaNode";
                           props := {["t" := VRef o]} |}]> h1) b = VRef o).
  { unfold get_t. rewrite lookup_insert_eq. simpl.
    rewrite lookup_singleton_eq. reflexivity. }
  repeat split.
  - destruct (h !! b) eqn:E; [|reflexivity].
    rewrite (lookup_weaken _ _ _ _ E Hsub1) in Hb. discriminate.
  - etrans; eassumption.
  - rewrite lookup_insert_eq. eauto.
  - intros l Hl. rewrite Hgt in Hl. injection Hl as <-. eauto.
  - unfold attributes at 1. rewrite Hgt. simpl. rewrite Hgo. reflexivity.
Qed.

Lemma with_attr_after (attr : string) this a h h0 :
  h ⊆ h0 -> allocated h this ->
  let b := (with_attr attr this a h0).1 in
  let h' := (with_attr attr this a h0).2 in
  h !! b = None
  /\ h ⊆ h'
  /\ allocated h' b
  /\ allocated h' this
  /\ attributes h' this = attributes h this
  /\ attributes h' b = <[attr := a]> (attributes h this).
Proof.
  intros Hsub Hal b h'.
  destruct (with_attr_spec attr this a h0) as (Hb & Hsub' & Halb & Hattr).
  fold b h' in Hb, Hsub', Halb, Hattr.
  destruct (attributes_extends h h0 this Hsub Hal) as [Hal0 Hat0].
  destruct (attributes_extends h0 h' this Hsub' Hal0) as [Hal' Hat'].
  refine (conj _ (conj _ (conj Halb (conj Hal' (conj _ _))))).
  - destruct (h !! b) eqn:E; [|reflexivity].
    rewrite (lookup_weaken _ _ _ _ E Hsub) in Hb. discriminate.
  - etrans; eassumption.
  - congruence.
  - rewrite Hattr, Hat0. reflexivity.
Qed.

Lemma step_spec (s : Step) this a h :
  allocated h this ->
  let b := (step s this a h).1 in
  let h' := (step s this a h).2 in
  h !! b = None
  /\ h ⊆ h'
  /\ allocated h' b
  /\ allocated h' this
  /\ attributes h' this = attributes h this
  /\ exists v, attributes h' b = <[attribute s := v]> (attributes h this)
               /\ (a <> VUndefined -> v = a).
Proof.
  intros Hal.
  assert (Hplain : forall attr,
    let b := (with_attr attr this a h).1 in
    let h' := (with_attr attr this a h).2 in
    h !! b = None /\ h ⊆ h' /\ allocated h' b /\ allocated h' this
    /\ attributes h' this = attributes h this
    /\ exists v, attributes h' b = <[attr := v]> (attributes h this)
                 /\ (a <> VUndefined -> v = a)).
  { intros attr.
    destruct (with_attr_after attr this a h h (reflexivity h) Hal)
      as (H1 & H2 & H3 & H4 & H5 & H6).
    refine (conj H1 (conj H2 (conj H3 (conj H4 (conj H5 _))))).
    exists a. split; [exact H6|reflexivity]. }
  assert (Hdefault : forall attr (p : gmap string Val),
    let d := new_object p h in
    let b := (with_attr attr this (VRef d.1) d.2).1 in
    let h' := (with_attr attr this (VRef d.1) d.2).2 in
    h !! b = None /\ h ⊆ h' /\ allocated h' b /\ allocated h' this
    /\ attributes h' this = attributes h this
    /\ exists v, attributes h' b = <[attr := v]> (attributes h this)
                 /\ (VUndefined <> VUndefined -> v = VUndefined)).
  { intros attr p d.
    destruct (with_attr_after attr this (VRef d.1) h d.2
                (new_object_extends p h) Hal)
      as (H1 & H2 & H3 & H4 & H5 & H6).
    refine (conj H1 (conj H2 (conj H3 (conj H4 (conj H5 _))))).
    eexists. split; [exact H6|]. congruence. }
  destruct s; simpl; try apply Hplain.
  - destruct a; try apply Hplain. apply Hdefault.
  - destruct a; try apply Hplain. apply Hdefault.
Qed.

(** C9: each of the seven steps, called on a builder of the heap, returns
    a builder that was not there before; every object of the heap,
    the called builder and its [t] among them, is as it was; the new
    builder holds the called builder's attributes with the step's
    attribute set to the argument (or to the default built for an
    [undefined] argument); and a second step on the same called builder
    derives another builder from those same prior attributes and leaves
    the first derived builder as it was. *)
Theorem builder_step_returns_new_builder (s : Step) this a h :
  allocated h this ->
  let b := (step s this a h).1 in
  let h' := (step s this a h).2 in
  h !! b = None
  /\ (forall l o, h !! l = Some o -> h' !! l = Some o)
  /\ attributes h' this = attributes h this
  /\ (exists v, attributes h' b = <[attribute s := v]> (attributes h this)
                /\ (a <> VUndefined -> v = a))
  /\ forall (s2 : Step) a2,
       let b2 := (step s2 this a2 h').1 in
       let h2 := (step s2 this a2 h').2 in
       b2 <> b
       /\ attributes h2 b = attributes h' b
       /\ exists v2,
            attributes h2 b2 = <[attribute s2 := v2]> (attributes h this)
            /\ (a2 <> VUndefined -> v2 = a2).
Proof.
  intros Hal b h'.
  destruct (step_spec s this a h Hal)
    as (Hb & Hsub & Halb & Hal' & Hat & Hv).
  fold b h' in Hb, Hsub, Halb, Hal', Hat, Hv.
  refine (conj Hb (conj _ (conj Hat (conj Hv _)))).
  { intros l o Hl. exact (lookup_weaken _ _ _ _ Hl Hsub). }
  intros s2 a2 b2 h2.
  refine (conj _ (conj _ _)).
  - intros Heq.
    destruct (step_spec s2 this a2 h' Hal') as (Hb2 & _).
    destruct Halb as [[x Hx] _].
    fold b2 in Hb2. rewrite Heq in Hb2. congruence.
  - destruct (step_spec s2 this a2 h' Hal') as (_ & Hsub2 & _).
    apply (attributes_extends h' _ b Hsub2 Halb).
  - destruct (step_spec s2 this a2 h' Hal')
      as (_ & _ & _ & _ & _ & v2 & Hv2 & Ha2).
    exists v2. rewrite <- Hat. split; assumption.
Qed.

End BuilderFacts.

(** ** The sample registry at work *)

Section SampleRuns.

Import Sample.

Local Abbreviation SampleApp net :=
  (App dataNodes resolveNodes promptNodes net).

Lemma decode_failure_renders_error_sample :
  exists ui,
    SampleApp answering (viewing "abc") = (Normal ui, viewing "abc")
    /\ View_dataNodeView ui
       = Some (div [Text "Error rendering "; Text "Number"; Text ": ";
                    Text "SyntaxError: Unexpected token"])
    /\ includes "SyntaxError: Unexpected token" "Unexpected token" = true
    /\ surfaces (SyntaxError "Unexpected token") ui = true.
Proof.
  apply (decode_failure_renders_error dataNodes resolveNodes promptNodes
           answering (viewing "abc") Number
           (SyntaxError "Unexpected token")); reflexivity.
Defined.

Lemma resolve_sends_raw_text_sample :
  exists ui,
    fst (SampleApp answering (viewing "21")) = Normal ui
    /\ exists row,
         Process_resolve ui !! 0%nat = Some row
         /\ key row = "double"
         /\ requests (snd (onClick (process_button row) (viewing "21")))
            = [{| url := "/api/resolver/double"; method := "POST";
                  body := [("input", "21")] |}].
Proof.
  eexists. split; [reflexivity|].
  apply (resolve_sends_raw_text dataNodes resolveNodes promptNodes
           answering (viewing "21") _ 0 double "21"); reflexivity.
Defined.

Lemma resolve_success_adopts_response_sample :
  exists ui,
    fst (SampleApp answering (viewing "21")) = Normal ui
    /\ exists row,
         Process_resolve ui !! 0%nat = Some row
         /\ key row = "double"
         /\ onClick (process_button row) (viewing "21")
            = (Normal tt,
               {| hooks := {| data := JStr "42"; dataType := "Number";
                              prompt := None |};
                  requests := [{| url := "/api/resolver/double";
                                  method := "POST";
                                  body := [("input", "21")] |}] |}).
Proof.
  eexists. split; [reflexivity|].
  apply (resolve_success_adopts_response dataNodes resolveNodes promptNodes
           answering (viewing "21") _ 0 double
           {| json := Normal (JStr "42") |} (JStr "42")); reflexivity.
Defined.

Lemma resolve_failure_keeps_state_sample :
  exists ui,
    fst (SampleApp rejecting (viewing "21")) = Normal ui
    /\ exists row,
         Process_resolve ui !! 0%nat = Some row
         /\ key row = "double"
         /\ fst (onClick (process_button row) (viewing "21"))
            = Throw Failed_to_fetch
         /\ hooks (snd (onClick (process_button row) (viewing "21")))
            = hooks (viewing "21")
         /\ fst (SampleApp rejecting
                   (snd (onClick (process_button row) (viewing "21"))))
            = Normal ui.
Proof.
  eexists. split; [reflexivity|].
  apply (resolve_failure_keeps_state dataNodes resolveNodes promptNodes
           rejecting (viewing "21") _ 0 double Failed_to_fetch);
    [reflexivity|reflexivity|left; reflexivity].
Defined.

(** C1, as stated, fails: after the rejected request of [double] the page
    is rendered, and no text of it includes the error's message. *)
Lemma resolve_failure_not_surfaced :
  exists ui row,
    fst (SampleApp rejecting (viewing "21")) = Normal ui
    /\ Process_resolve ui !! 0%nat = Some row
    /\ fst (onClick (process_button row) (viewing "21"))
       = Throw Failed_to_fetch
    /\ exists ui',
         fst (SampleApp rejecting
                (snd (onClick (process_button row) (viewing "21"))))
         = Normal ui'
         /\ surfaces Failed_to_fetch ui' = false.
Proof.
  eexists. eexists. split; [reflexivity|].
  split; [reflexivity|]. split; [reflexivity|].
  eexists. split; [reflexivity|]. vm_compute. reflexivity.
Qed.

Lemma annotate_is_prompting (text : string) :
  Prompting promptNodes (prompting "annotate" text) annotate.
Proof. exists "annotate". repeat split. discriminate. Defined.

Lemma enter_is_prompting (text : string) :
  Prompting promptNodes (prompting "enter" text) enter.
Proof. exists "enter". repeat split. discriminate. Defined.

(** C2, as stated, fails: with the prompt [annotate] active, the editor
    and the type selector are rendered, and either moves the hooks. *)
Lemma prompting_allows_select_and_edit :
  Prompting promptNodes (prompting "annotate" "21") annotate
  /\ exists ui,
       fst (SampleApp answering (prompting "annotate" "21")) = Normal ui
       /\ hooks (snd (onValueChange (Data_editor ui) "22"
                        (prompting "annotate" "21")))
          = {| data := JStr "22"; dataType := "Number";
               prompt := Some "annotate" |}
       /\ hooks (snd (onValueChange (Data_editor ui) "22"
                        (prompting "annotate" "21")))
          <> hooks (prompting "annotate" "21")
       /\ hooks (snd (onChange (View_select ui) "Note"
                        (prompting "annotate" "21")))
          = {| data := JStr "21"; dataType := "Note"; prompt := None |}
       /\ hooks (snd (onChange (View_select ui) "Note"
                        (prompting "annotate" "21")))
          <> hooks (prompting "annotate" "21").
Proof.
  split; [apply annotate_is_prompting|].
  eexists. split; [reflexivity|].
  split; [reflexivity|]. split; [discriminate|].
  split; [reflexivity|discriminate].
Qed.

Lemma prompting_view_and_controls_sample :
  exists ui props,
    SampleApp answering (prompting "annotate" "21")
    = (Normal ui, prompting "annotate" "21")
    /\ View_dataNodeView ui
       = Some (Element (PromptNode.prompt annotate) props)
    /\ (forall text w',
          onValueChange (Data_editor ui) text w'
          = (Normal tt,
             {| hooks := {| data := JStr text;
                            dataType := dataType (hooks w');
                            prompt := prompt (hooks w') |};
                requests := requests w' |}))
    /\ (forall id w',
          onChange (View_select ui) id w'
          = (Normal tt,
             {| hooks := {| data := data (hooks w');
                            dataType := id;
                            prompt := None |};
                requests := requests w' |})).
Proof.
  apply (prompting_view_and_controls dataNodes resolveNodes promptNodes
           answering (prompting "annotate" "21") annotate).
  apply annotate_is_prompting.
Defined.

Lemma submit_moves_to_output_sample :
  exists ui props,
    SampleApp answering (prompting "annotate" "21")
    = (Normal ui, prompting "annotate" "21")
    /\ View_dataNodeView ui
       = Some (Element (PromptNode.prompt annotate) props)
    /\ forall v text w',
         encode Number_codec v = Normal text ->
         submit props v w'
         = (Normal tt,
            {| hooks := {| data := JStr text; dataType := "Number";
                           prompt := None |};
               requests := requests w' |}).
Proof.
  apply (submit_moves_to_output dataNodes resolveNodes promptNodes
           answering (prompting "annotate" "21") annotate).
  apply annotate_is_prompting.
Defined.

Lemma prompt_receives_first_input_sample :
  exists ui props,
    SampleApp answering (prompting "annotate" "21")
    = (Normal ui, prompting "annotate" "21")
    /\ View_dataNodeView ui
       = Some (Element (PromptNode.prompt annotate) props)
    /\ inputs props = [("value", JStr "21")].
Proof.
  apply (prompt_receives_first_input dataNodes resolveNodes promptNodes
           answering (prompting "annotate" "21") annotate
           "value" Number [("note", Note)]);
    [apply annotate_is_prompting|reflexivity].
Defined.

Lemma prompt_without_inputs_sample :
  exists ui props,
    SampleApp answering (prompting "enter" "21")
    = (Normal ui, prompting "enter" "21")
    /\ View_dataNodeView ui
       = Some (Element (PromptNode.prompt enter) props)
    /\ inputs props = [("undefined", JStr "21")].
Proof.
  apply (prompt_without_inputs_receives_undefined_key dataNodes resolveNodes
           promptNodes answering (prompting "enter" "21") enter);
    [apply enter_is_prompting|reflexivity].
Defined.

Lemma load_example_sample :
  exists ui,
    fst (SampleApp answering (prompting "enter" "7")) = Normal ui
    /\ List.map label (Examples ui) = ["Number"]
    /\ forall i node,
         [Number] !! i = Some node ->
         exists b,
           Examples ui !! i = Some b
           /\ forall example text w',
                get (DataNode.meta node) "example" = Some example ->
                encode (DataNode.codec node) example = Normal text ->
                onClick b w'
                = (Normal tt,
                   {| hooks := {| data := JStr text;
                                  dataType := DataNode.spec node;
                                  prompt := None |};
                      requests := requests w' |}).
Proof.
  eexists. split; [reflexivity|].
  apply (load_example dataNodes resolveNodes promptNodes answering
           (prompting "enter" "7")). reflexivity.
Defined.

End SampleRuns.

Section BuilderRuns.

Import MetaNode.

Lemma createData_allocated (spec : string) (h : Heap) :
  allocated (createData spec h).2 (createData spec h).1.
Proof.
  unfold createData.
  set (p := ({["spec" := VStr spec; "kind" := VStr "data"]} : gmap string Val)).
  pose proof (new_object_fresh p h) as Ho.
  destruct (new_object p h) as [o h1] eqn:E1. simpl in Ho.
  assert (Hh1 : h1 = <[o := {| class := "Object"; props := p |}]> h).
  { unfold new_object in E1. congruence. }
  simpl. set (b := fresh (dom h1)).
  assert (Hb : h1 !! b = None) by apply not_elem_of_dom, is_fresh.
  assert (Hne : o <> b).
  { intros Heq. rewrite Hh1, <- Heq, lookup_insert_eq in Hb. discriminate. }
  split.
  - rewrite lookup_insert_eq. eauto.
  - intros l. unfold get_t. rewrite lookup_insert_eq. simpl.
    rewrite lookup_singleton_eq. simpl. intros [= <-].
    rewrite lookup_insert_ne by congruence.
    rewrite Hh1, lookup_insert_eq. eauto.
Qed.

(** The builder of [MetaNode.createData('Number')] on an empty heap. *)
Lemma builder_step_returns_new_builder_sample :
  let this := (createData "Number" ∅).1 in
  let h := (createData "Number" ∅).2 in
  let b := (step Meta this (VStr "about") h).1 in
  let h' := (step Meta this (VStr "about") h).2 in
  h !! b = None
  /\ (forall l o, h !! l = Some o -> h' !! l = Some o)
  /\ attributes h' this = attributes h this
  /\ (exists v, attributes h' b = <[attribute Meta := v]> (attributes h this)
                /\ (VStr "about" <> VUndefined -> v = VStr "about"))
  /\ forall (s2 : Step) a2,
       let b2 := (step s2 this a2 h').1 in
       let h2 := (step s2 this a2 h').2 in
       b2 <> b
       /\ attributes h2 b = attributes h' b
       /\ exists v2,
            attributes h2 b2 = <[attribute s2 := v2]> (attributes h this)
            /\ (a2 <> VUndefined -> v2 = a2).
Proof.
  apply (builder_step_returns_new_builder Meta
           (createData "Number" ∅).1 (VStr "about") (createData "Number" ∅).2).
  apply createData_allocated.
Defined.

End BuilderRuns.

(** * More of the page *)

Section PageMore.

Variable dataNodes : JSObject MetaNodeDataType.
Variable resolveNodes : JSObject MetaNodeResolveType.
Variable promptNodes : JSObject MetaNodePromptType.
Variable network : Request -> Completion Response.

Local Abbreviation App' := (App dataNodes resolveNodes promptNodes network).

(** The line shown for an error caught while rendering [node]. *)
Local Abbreviation error_line node e :=
  [Text "Error rendering "; Text (DataNode.spec node); Text ": ";
   Text (Error_toString e)].



(** The page rendered in a viewing state: [App] returns, and the current
    view is what [data_view] gives. *)
Lemma App_viewing (w : World) (v : option ReactNode) :
  truthy (prompt (hooks w)) = false ->
  data_view (data (hooks w)) (get dataNodes (dataType (hooks w))) w
  = (Normal v, w) ->
  exists ui, App' w = (Normal ui, w) /\ View_dataNodeView ui = v.
Proof.
  intros Hp Hv.
  destruct (App_run dataNodes resolveNodes promptNodes network w)
    as [r [Hr HApp]].
  specialize (Hr w).
  rewrite (current_view_viewing _ _ _ _ _ Hp), Hv in Hr.
  injection Hr as <-. eexists. split; [exact HApp|reflexivity].
Qed.

(** X1: rendering calls no setter and sends no request: whether [App]
    returns or throws, the hooks and the request log are as before; and
    what it returns does not depend on the request log. *)
Theorem render_leaves_world (w : World) (log : list Request) :
  snd (App' w) = w
  /\ fst (App' {| hooks := hooks w; requests := log |}) = fst (App' w).
Proof.
  split.
  - destruct (App_run dataNodes resolveNodes promptNodes network w)
      as [r [_ ->]]. reflexivity.
  - apply App_hooks. reflexivity.
Qed.


Lemma data_view_ok (d : JSValue) (node : MetaNodeDataType) (v : JSValue)
  (r : ReactNode) (w : World) :
  decode (DataNode.codec node) d = Normal v ->
  DataNode.view node v = Normal r ->
  data_view d (Some node) w = (Normal (Some (div [r])), w).
Proof.
  intros Hd Hv. unfold data_view, try_catch, bind, call.
  rewrite Hd, Hv. reflexivity.
Qed.

Lemma data_view_view_error (d : JSValue) (node : MetaNodeDataType)
  (v : JSValue) (e : JSError) (w : World) :
  decode (DataNode.codec node) d = Normal v ->
  DataNode.view node v = Throw e ->
  data_view d (Some node) w = (Normal (Some (div (error_line node e))), w).
Proof.
  intros Hd Hv. unfold data_view, try_catch, bind, call.
  rewrite Hd, Hv. reflexivity.
Qed.

Lemma App_prompt_row (w : World) (ui : AppView) (i : nat)
  (proc : MetaNodePromptType) :
  fst (App' w) = Normal ui ->
  Object_values promptNodes !! i = Some proc ->
  Process_prompt ui !! i = Some (prompt_row (dataType (hooks w)) proc).
Proof.
  intros HApp Hi.
  destruct (App_run dataNodes resolveNodes promptNodes network w)
    as [[v|e] [_ Hrun]]; rewrite Hrun in HApp; simpl in HApp;
    [|discriminate].
  injection HApp as <-. simpl. rewrite lookup_map, Hi. reflexivity.
Qed.


(** X4: a view function that throws is caught like a decode that
    throws: [App] returns, the current view is the error line with the
    node's id and [e.toString()], and the page tells the user of [e]. *)
Theorem view_failure_renders_error (w : World) (node : MetaNodeDataType)
  (v : JSValue) (e : JSError) :
  truthy (prompt (hooks w)) = false ->
  get dataNodes (dataType (hooks w)) = Some node ->
  decode (DataNode.codec node) (data (hooks w)) = Normal v ->
  DataNode.view node v = Throw e ->
  exists ui,
    App' w = (Normal ui, w)
    /\ View_dataNodeView ui = Some (div (error_line node e))
    /\ surfaces e ui = true.
Proof.
  intros Hp Hn Hd Hv.
  pose proof (data_view_view_error _ _ _ _ w Hd Hv) as Hc.
  rewrite <- Hn in Hc.
  destruct (App_viewing w _ Hp Hc) as (ui & HApp & Hview).
  exists ui. split; [exact HApp|]. split; [exact Hview|].
  eapply surfaces_view; [exact Hview|]. simpl.
  rewrite includes_message, !orb_true_r. reflexivity.
Qed.



(** X7: the button of a prompt operation whose id is not empty stores
    that id in the [prompt] hook and leaves the buffer and the selected
    type alone; when the registry has a node under that id, that node is
    the active prompt afterwards. *)
Theorem prompt_button_activates (w : World) (ui : AppView) (i : nat)
  (proc p : MetaNodePromptType) :
  fst (App' w) = Normal ui ->
  Object_values promptNodes !! i = Some proc ->
  PromptNode.spec proc <> "" ->
  get promptNodes (PromptNode.spec proc) = Some p ->
  exists row,
    Process_prompt ui !! i = Some row
    /\ onClick (process_button row) w
       = (Normal tt,
          {| hooks := {| data := data (hooks w);
                         dataType := dataType (hooks w);
                         prompt := Some (PromptNode.spec proc) |};
             requests := requests w |})
    /\ Prompting promptNodes (snd (onClick (process_button row) w)) p.
Proof.
  intros HApp Hi Hne Hget.
  eexists. split; [exact (App_prompt_row _ _ _ _ HApp Hi)|].
  split; [reflexivity|].
  exists (PromptNode.spec proc). simpl. auto.
Qed.

(** The page rendered once the hooks hold [d] for the registered node
    [node] and no prompt, when [decode] and [view] return. *)
Lemma App_shows (w : World) (node : MetaNodeDataType) (v : JSValue)
  (r : ReactNode) :
  prompt (hooks w) = None ->
  get dataNodes (dataType (hooks w)) = Some node ->
  decode (DataNode.codec node) (data (hooks w)) = Normal v ->
  DataNode.view node v = Normal r ->
  exists ui, App' w = (Normal ui, w)
             /\ View_dataNodeView ui = Some (div [r]).
Proof.
  intros Hp Hn Hd Hv.
  apply App_viewing; [rewrite Hp; reflexivity|].
  rewrite Hn. exact (data_view_ok _ _ _ _ w Hd Hv).
Qed.

(** ** Flows *)

(** X8: the prompt flow: while [p] is active, when [p]'s output node is
    registered under its own id and its codec takes [v] to [text] and
    [text] back to [v], then after [submit(v)] the page shows the
    output node's view of [v]. *)
Theorem prompt_flow_shows_submitted_value (w : World)
  (p : MetaNodePromptType) (v : JSValue) (text : string) (r : ReactNode) :
  Prompting promptNodes w p ->
  get dataNodes (DataNode.spec (PromptNode.output p))
  = Some (PromptNode.output p) ->
  encode (DataNode.codec (PromptNode.output p)) v = Normal text ->
  decode (DataNode.codec (PromptNode.output p)) (JStr text) = Normal v ->
  DataNode.view (PromptNode.output p) v = Normal r ->
  exists ui props,
    App' w = (Normal ui, w)
    /\ View_dataNodeView ui = Some (Element (PromptNode.prompt p) props)
    /\ fst (submit props v w) = Normal tt
    /\ exists ui',
         App' (snd (submit props v w)) = (Normal ui', snd (submit props v w))
         /\ View_dataNodeView ui' = Some (div [r]).
Proof.
  intros H Hn Henc Hdec Hv.
  destruct (App_prompting dataNodes resolveNodes promptNodes network w p H)
    as (ui & id & HApp & _ & Hget & _ & _ & Hview).
  exists ui. eexists. split; [exact HApp|]. split; [exact Hview|].
  simpl. rewrite (Prompt_submit_run _ _ _ _ _ w Hget Henc). simpl.
  split; [reflexivity|].
  apply (App_shows _ (PromptNode.output p) v r); auto.
Qed.

(** X9: the example flow: when a data node with an example is
    registered under its own id and its codec takes the example to
    [text] and [text] back to the example, then after its example
    button the page shows the node's view of the example. *)
Theorem example_flow_shows_example (w : World) (ui : AppView) (i : nat)
  (node : MetaNodeDataType) (example : JSValue) (text : string)
  (r : ReactNode) :
  fst (App' w) = Normal ui ->
  List.filter (fun node => has_key "example" (DataNode.meta node))
              (listed dataNodes) !! i = Some node ->
  get dataNodes (DataNode.spec node) = Some node ->
  get (DataNode.meta node) "example" = Some example ->
  encode (DataNode.codec node) example = Normal text ->
  decode (DataNode.codec node) (JStr text) = Normal example ->
  DataNode.view node example = Normal r ->
  exists b,
    Examples ui !! i = Some b
    /\ fst (onClick b w) = Normal tt
    /\ exists ui',
         App' (snd (onClick b w)) = (Normal ui', snd (onClick b w))
         /\ View_dataNodeView ui' = Some (div [r]).
Proof.
  intros HApp Hi Hn Hex Henc Hdec Hv.
  destruct (App_run dataNodes resolveNodes promptNodes network w)
    as [[c|e] [_ Hrun]]; rewrite Hrun in HApp; simpl in HApp;
    [|discriminate].
  injection HApp as <-. simpl.
  eexists. split; [rewrite lookup_map, Hi; reflexivity|]. simpl.
  rewrite (example_onClick_run _ _ _ w Hex Henc). simpl.
  split; [reflexivity|].
  apply (App_shows _ node example r); auto.
Qed.

(** X10: the resolve flow: when the transport answers with [res], the
    output node of [proc] is registered under its own id, and its codec
    decodes [res] to [v], then after the button of [proc] the page shows
    the output node's view of [v]. *)
Theorem resolve_flow_shows_response (w : World) (ui : AppView) (i : nat)
  (proc : MetaNodeResolveType) (resp : Response) (res v : JSValue)
  (r : ReactNode) :
  fst (App' w) = Normal ui ->
  Object_values resolveNodes !! i = Some proc ->
  network (resolve_request (data (hooks w)) proc) = Normal resp ->
  json resp = Normal res ->
  get dataNodes (DataNode.spec (ResolveNode.output proc))
  = Some (ResolveNode.output proc) ->
  decode (DataNode.codec (ResolveNode.output proc)) res = Normal v ->
  DataNode.view (ResolveNode.output proc) v = Normal r ->
  exists row,
    Process_resolve ui !! i = Some row
    /\ fst (onClick (process_button row) w) = Normal tt
    /\ exists ui',
         App' (snd (onClick (process_button row) w))
         = (Normal ui', snd (onClick (process_button row) w))
         /\ View_dataNodeView ui' = Some (div [r]).
Proof.
  intros HApp Hi Hnet Hjson Hn Hdec Hv.
  eexists. split; [exact (App_resolve_row _ _ _ _ _ _ _ _ HApp Hi)|].
  simpl. rewrite resolve_onClick_run, Hnet, Hjson. simpl.
  split; [reflexivity|].
  apply (App_shows _ (ResolveNode.output proc) v r); auto.
Qed.

(** ** Handlers that stop half-way *)

(** X11: when the output codec's [encode] throws on the submitted value,
    [submit] has already set the selected type to the output's id: it
    throws the codec's error with the type changed, the buffer as it
    was and the prompt still active. *)
Theorem submit_encode_failure_changes_type_only (w : World)
  (p : MetaNodePromptType) :
  Prompting promptNodes w p ->
  exists ui props,
    App' w = (Normal ui, w)
    /\ View_dataNodeView ui = Some (Element (PromptNode.prompt p) props)
    /\ forall v e w',
         encode (DataNode.codec (PromptNode.output p)) v = Throw e ->
         submit props v w'
         = (Throw e,
            {| hooks := {| data := data (hooks w');
                           dataType := DataNode.spec (PromptNode.output p);
                           prompt := prompt (hooks w') |};
               requests := requests w' |}).
Proof.
  intros H.
  destruct (App_prompting dataNodes resolveNodes promptNodes network w p H)
    as (ui & id & HApp & _ & Hget & _ & _ & Hview).
  exists ui. eexists. split; [exact HApp|]. split; [exact Hview|].
  intros v e w' Henc. simpl. unfold Prompt_submit, bind, call.
  rewrite Hget. simpl. rewrite Henc. reflexivity.
Qed.

(** X12: when the node's [encode] throws on the example, the example
    button has already cleared the prompt and set the selected type: it
    throws the codec's error with the buffer as it was. *)
Theorem example_encode_failure_keeps_buffer (w : World) (ui : AppView)
  (i : nat) (node : MetaNodeDataType) (example : JSValue) (e : JSError) :
  fst (App' w) = Normal ui ->
  List.filter (fun node => has_key "example" (DataNode.meta node))
              (listed dataNodes) !! i = Some node ->
  get (DataNode.meta node) "example" = Some example ->
  encode (DataNode.codec node) example = Throw e ->
  exists b,
    Examples ui !! i = Some b
    /\ forall w',
         onClick b w'
         = (Throw e,
            {| hooks := {| data := data (hooks w');
                           dataType := DataNode.spec node;
                           prompt := None |};
               requests := requests w' |}).
Proof.
  intros HApp Hi Hex Henc.
  destruct (App_run dataNodes resolveNodes promptNodes network w)
    as [[c|e'] [_ Hrun]]; rewrite Hrun in HApp; simpl in HApp;
    [|discriminate].
  injection HApp as <-. simpl.
  eexists. split; [rewrite lookup_map, Hi; reflexivity|].
  intros w'. simpl. unfold example_onClick, bind, call.
  rewrite Hex. simpl. rewrite Henc. reflexivity.
Qed.

(** ** Requests and listings *)


Lemma emphasis_bold (ins : JSObject MetaNodeDataType) (t : string) :
  emphasis ins t = "bold"
  <-> exists input node, In (input, node) ins /\ DataNode.spec node = t.
Proof.
  unfold emphasis, Object_values.
  destruct (existsb _ _) eqn:E.
  - split; [intros _|reflexivity].
    apply existsb_exists in E. destruct E as (node & Hin & Heq).
    apply in_map_iff in Hin. destruct Hin as ([input node'] & <- & Hin).
    apply String.eqb_eq in Heq. eauto.
  - split; [discriminate|].
    intros (input & node & Hin & Heq).
    assert (existsb (fun i => String.eqb (DataNode.spec i) t)
                    (List.map snd ins) = true); [|congruence].
    apply existsb_exists. exists node. split.
    + apply in_map_iff. exists (input, node). auto.
    + apply String.eqb_eq. exact Heq.
Qed.

Lemma inputs_label_none (ins : JSObject MetaNodeDataType) :
  inputs_label ins = None <-> ins = [].
Proof.
  unfold inputs_label. destruct ins; simpl; split; congruence.
Qed.

(** X14: every prompt and every resolve operation of the registries has
    its line, in registry order, whatever the state; its button is bold
    exactly when one of its declared inputs is the selected type, and
    the span of inputs is left out exactly when it declares none. *)
Theorem process_lines_list_every_operation (w : World) (ui : AppView) :
  fst (App' w) = Normal ui ->
  List.map key (Process_prompt ui)
  = List.map PromptNode.spec (Object_values promptNodes)
  /\ List.map key (Process_resolve ui)
     = List.map ResolveNode.spec (Object_values resolveNodes)
  /\ (forall i proc,
        Object_values promptNodes !! i = Some proc ->
        exists row,
          Process_prompt ui !! i = Some row
          /\ (fontWeight (process_button row) = "bold"
              <-> exists input node,
                    In (input, node) (PromptNode.inputs proc)
                    /\ DataNode.spec node = dataType (hooks w))
          /\ (inputs_span row = None <-> PromptNode.inputs proc = []))
  /\ (forall i proc,
        Object_values resolveNodes !! i = Some proc ->
        exists row,
          Process_resolve ui !! i = Some row
          /\ (fontWeight (process_button row) = "bold"
              <-> exists input node,
                    In (input, node) (ResolveNode.inputs proc)
                    /\ DataNode.spec node = dataType (hooks w))
          /\ (inputs_span row = None <-> ResolveNode.inputs proc = [])).
Proof.
  intros HApp.
  split; [|split; [|split]].
  - destruct (App_run dataNodes resolveNodes promptNodes network w)
      as [[c|e] [_ Hrun]]; rewrite Hrun in HApp; simpl in HApp;
      [|discriminate].
    injection HApp as <-. simpl. rewrite List.map_map. reflexivity.
  - destruct (App_run dataNodes resolveNodes promptNodes network w)
      as [[c|e] [_ Hrun]]; rewrite Hrun in HApp; simpl in HApp;
      [|discriminate].
    injection HApp as <-. simpl. rewrite List.map_map. reflexivity.
  - intros i proc Hi. eexists.
    split; [exact (App_prompt_row _ _ _ _ HApp Hi)|]. simpl.
    split; [apply emphasis_bold|apply inputs_label_none].
  - intros i proc Hi. eexists.
    split; [exact (App_resolve_row _ _ _ _ _ _ _ _ HApp Hi)|]. simpl.
    split; [apply emphasis_bold|apply inputs_label_none].
Qed.

End PageMore.

Lemma listed_values {A} (o : JSObject A) :
  NoDup (Object_keys o) -> listed o = Object_values o.
Proof.
  unfold listed.
  induction o as [|[k a] o IH]; [reflexivity|].
  simpl. intros Hnd. inversion Hnd as [|? ? Hk Hnd']; subst.
  specialize (IH Hnd'). rewrite String.eqb_refl. simpl. f_equal.
  rewrite <- IH. clear IH Hnd Hnd'.
  assert (Hext : forall ks, ~ In k ks ->
            omap (get ((k, a) :: o)) ks = omap (get o) ks).
  { intros ks Hnot. apply list_omap_ext.
    induction ks as [|k' ks IHks]; constructor.
    - simpl. destruct (String.eqb k k') eqn:E; [|reflexivity].
      apply String.eqb_eq in E. subst. exfalso. apply Hnot. left. reflexivity.
    - apply IHks. intros Hin. apply Hnot. right. exact Hin. }
  apply Hext. intros Hin. apply Hk, list_elem_of_In, Hin.
Qed.

(** X15: when the keys of the data registry are distinct, the example
    buttons are the registry's nodes that have an example, in registry
    order: the nodes found through [Object.keys] and a lookup are the
    nodes of [Object.values]. *)
Theorem example_buttons_follow_registry
  (dataNodes : JSObject MetaNodeDataType)
  (resolveNodes : JSObject MetaNodeResolveType)
  (promptNodes : JSObject MetaNodePromptType)
  (network : Request -> Completion Response) (w : World) (ui : AppView) :
  NoDup (Object_keys dataNodes) ->
  fst (App dataNodes resolveNodes promptNodes network w) = Normal ui ->
  List.map label (Examples ui)
  = List.map DataNode.spec
      (List.filter (fun node => has_key "example" (DataNode.meta node))
                   (Object_values dataNodes)).
Proof.
  intros Hnd HApp.
  destruct (App_run dataNodes resolveNodes promptNodes network w)
    as [[c|e] [_ Hrun]]; rewrite Hrun in HApp; simpl in HApp;
    [|discriminate].
  injection HApp as <-. simpl.
  rewrite List.map_map, (listed_values _ Hnd). reflexivity.
Qed.

(** * More of the builder *)

Section BuilderMore.

Import MetaNode.

Implicit Types (h : Heap) (b this : loc) (a v : Val).

(** [new MetaNode({ ...literal })] *)
Lemma literal_builder_spec (p : gmap string Val) h :
  let r := (let '(o, h1) := new_object p h in new_MetaNode (VRef o) h1) in
  h !! r.1 = None
  /\ h ⊆ r.2
  /\ allocated r.2 r.1
  /\ attributes r.2 r.1 = p
  /\ exists o, get_t r.2 r.1 = VRef o /\ h !! o = None
               /\ r.2 !! o = Some {| class := "Object"; props := p |}.
Proof.
  pose proof (new_object_fresh p h) as Ho.
  destruct (new_object p h) as [o h1] eqn:E1. simpl in Ho.
  assert (Hh1 : h1 = <[o := {| class := "Object"; props := p |}]> h).
  { unfold new_object in E1. congruence. }
  simpl. set (b := fresh (dom h1)).
  assert (Hb : h1 !! b = None) by apply not_elem_of_dom, is_fresh.
  assert (Hne : o <> b).
  { intros Heq. rewrite Hh1, <- Heq, lookup_insert_eq in Hb. discriminate. }
  assert (Hsub1 : h ⊆ h1) by (rewrite Hh1; apply insert_subseteq, Ho).
  set (h' := <[b := {| class := "MetaNode";
                       props := {["t" := VRef o]} |}]> h1).
  assert (Hsub2 : h1 ⊆ h') by apply insert_subseteq, Hb.
  assert (Hgo : h' !! o = Some {| class := "Object"; props := p |}).
  { unfold h'. rewrite lookup_insert_ne by congruence.
    rewrite Hh1. apply lookup_insert_eq. }
  assert (Hgt : get_t h' b = VRef o).
  { unfold get_t, h'. rewrite lookup_insert_eq. simpl.
    rewrite lookup_singleton_eq. reflexivity. }
  refine (conj _ (conj _ (conj (conj _ _) (conj _ _)))).
  - destruct (h !! b) eqn:E; [|reflexivity].
    rewrite (lookup_weaken _ _ _ _ E Hsub1) in Hb. discriminate.
  - etrans; eassumption.
  - unfold h'. rewrite lookup_insert_eq. eauto.
  - intros l Hl. rewrite Hgt in Hl. injection Hl as <-. eauto.
  - unfold attributes. rewrite Hgt. simpl. rewrite Hgo. reflexivity.
  - exists o. auto.
Qed.

Lemma step_defined (s : Step) this a h :
  a <> VUndefined -> step s this a h = with_attr (attribute s) this a h.
Proof. intros Ha. destruct s; destruct a; try reflexivity; congruence. Qed.

Lemma attribute_inj (s1 s2 : Step) : attribute s1 = attribute s2 -> s1 = s2.
Proof. destruct s1, s2; simpl; intros H; congruence. Qed.

(** One link of a chain of steps whose arguments are given. *)
Lemma step_link (s : Step) this a h :
  allocated h this -> a <> VUndefined ->
  h ⊆ (step s this a h).2
  /\ allocated (step s this a h).2 (step s this a h).1
  /\ attributes (step s this a h).2 (step s this a h).1
     = <[attribute s := a]> (attributes h this).
Proof.
  intros Hal Ha.
  destruct (step_spec s this a h Hal)
    as (_ & Hsub & Halb & _ & _ & v & Hv & Hva).
  rewrite (Hva Ha) in Hv. auto.
Qed.

(** X16: the two entry points: [createData] and [createProcess] return
    a builder that was not in the heap, keep every object of the heap,
    and the new builder holds exactly [spec] and [kind], the kind being
    ["data"] for the one and ["process"] for the other. *)
Theorem entry_points_make_fresh_builders (spec : string) h :
  (h !! (createData spec h).1 = None
   /\ (forall l o, h !! l = Some o -> (createData spec h).2 !! l = Some o)
   /\ own_props (createData spec h).2
        (build (createData spec h).1 (createData spec h).2)
      = {["spec" := VStr spec; "kind" := VStr "data"]})
  /\ (h !! (createProcess spec h).1 = None
      /\ (forall l o,
            h !! l = Some o -> (createProcess spec h).2 !! l = Some o)
      /\ own_props (createProcess spec h).2
           (build (createProcess spec h).1 (createProcess spec h).2)
         = {["spec" := VStr spec; "kind" := VStr "process"]}).
Proof.
  split.
  - destruct (literal_builder_spec
                {["spec" := VStr spec; "kind" := VStr "data"]} h)
      as (Hb & Hsub & _ & Hat & _).
    refine (conj Hb (conj _ Hat)).
    intros l o Hl. exact (lookup_weaken _ _ _ _ Hl Hsub).
  - destruct (literal_builder_spec
                {["spec" := VStr spec; "kind" := VStr "process"]} h)
      as (Hb & Hsub & _ & Hat & _).
    refine (conj Hb (conj _ Hat)).
    intros l o Hl. exact (lookup_weaken _ _ _ _ Hl Hsub).
Qed.

Lemma createProcess_allocated (spec : string) h :
  allocated (createProcess spec h).2 (createProcess spec h).1.
Proof.
  exact (proj1 (proj2 (proj2 (literal_builder_spec
    {["spec" := VStr spec; "kind" := VStr "process"]} h)))).
Qed.

Lemma createData_attributes (spec : string) h :
  attributes (createData spec h).2 (createData spec h).1
  = {["spec" := VStr spec; "kind" := VStr "data"]}.
Proof.
  exact (proj1 (proj2 (proj2 (proj2 (literal_builder_spec
    {["spec" := VStr spec; "kind" := VStr "data"]} h))))).
Qed.

Lemma createProcess_attributes (spec : string) h :
  attributes (createProcess spec h).2 (createProcess spec h).1
  = {["spec" := VStr spec; "kind" := VStr "process"]}.
Proof.
  exact (proj1 (proj2 (proj2 (proj2 (literal_builder_spec
    {["spec" := VStr spec; "kind" := VStr "process"]} h))))).
Qed.

Lemma with_attr_link (attr : string) this a h :
  allocated h this ->
  h ⊆ (with_attr attr this a h).2
  /\ allocated (with_attr attr this a h).2 (with_attr attr this a h).1
  /\ attributes (with_attr attr this a h).2 (with_attr attr this a h).1
     = <[attr := a]> (attributes h this).
Proof.
  intros Hal.
  destruct (with_attr_after attr this a h h (reflexivity h) Hal)
    as (_ & Hsub & Halb & _ & _ & Hat). auto.
Qed.

(** X17: the data path: [createData(spec).meta(m).codec(c).view(v)] with
    a codec given builds a node whose properties are exactly [spec],
    [kind: 'data'], [meta], [codec] and [view]; the heap it started from
    is intact, and the first builder of the chain still holds only
    [spec] and [kind]. *)
Theorem data_path_builds_node (spec : string) (vm vc vv : Val) h :
  vc <> VUndefined ->
  let c := createData spec h in
  let m := meta c.1 vm c.2 in
  let k := codec m.1 vc m.2 in
  let n := view k.1 vv k.2 in
  own_props n.2 (build n.1 n.2)
  = <["view" := vv]> (<["codec" := vc]> (<["meta" := vm]>
      {["spec" := VStr spec; "kind" := VStr "data"]}))
  /\ own_props n.2 (build c.1 n.2)
     = {["spec" := VStr spec; "kind" := VStr "data"]}
  /\ forall l o, h !! l = Some o -> n.2 !! l = Some o.
Proof.
  intros Hvc c m k n.
  pose proof (createData_allocated spec h) as Hc.
  pose proof (createData_attributes spec h) as Hca.
  destruct (literal_builder_spec
              {["spec" := VStr spec; "kind" := VStr "data"]} h)
    as (_ & Hsub0 & _).
  fold c in Hc, Hca. change (h ⊆ c.2) in Hsub0.
  destruct (with_attr_link "meta" c.1 vm c.2 Hc) as (Hs1 & Hm & Hma).
  fold (meta c.1 vm c.2) in Hs1, Hm, Hma. fold m in Hs1, Hm, Hma.
  destruct (with_attr_link "codec" m.1 vc m.2 Hm) as (Hs2 & Hk & Hka).
  assert (Hsd : k = with_attr "codec" m.1 vc m.2)
    by exact (step_defined Codec _ _ _ Hvc).
  rewrite <- Hsd in Hs2, Hk, Hka.
  destruct (with_attr_link "view" k.1 vv k.2 Hk) as (Hs3 & Hn & Hna).
  fold (view k.1 vv k.2) in Hs3, Hn, Hna. fold n in Hs3, Hn, Hna.
  assert (Hcn : c.2 ⊆ n.2) by (etrans; [exact Hs1|]; etrans; eassumption).
  split; [|split].
  - change (attributes n.2 n.1 = <["view" := vv]> (<["codec" := vc]>
      (<["meta" := vm]> {["spec" := VStr spec; "kind" := VStr "data"]}))).
    rewrite Hna, Hka, Hma, Hca. reflexivity.
  - change (attributes n.2 c.1
            = {["spec" := VStr spec; "kind" := VStr "data"]}).
    rewrite (proj2 (attributes_extends c.2 n.2 c.1 Hcn Hc)). exact Hca.
  - intros l o Hl. apply (lookup_weaken c.2); [|exact Hcn].
    exact (lookup_weaken _ _ _ _ Hl Hsub0).
Qed.

(** X18: the process path, with a builder used twice: from
    [createProcess(spec).meta(m).inputs(i).output(o)], [.prompt(p)] and
    then [.resolve(r)] on that same builder derive two nodes; each has
    [spec], [kind: 'process'], [meta], [inputs], [output] and its own
    handler, and neither has the other's handler. *)
Theorem process_path_builds_both_kinds (spec : string)
  (vm vi vo vp vr : Val) h :
  vi <> VUndefined ->
  let c := createProcess spec h in
  let m := meta c.1 vm c.2 in
  let i := inputs m.1 vi m.2 in
  let o := output i.1 vo i.2 in
  let p := prompt o.1 vp o.2 in
  let r := resolve o.1 vr p.2 in
  let common :=
    <["output" := vo]> (<["inputs" := vi]> (<["meta" := vm]>
      ({["spec" := VStr spec; "kind" := VStr "process"]}
         : gmap string Val))) in
  own_props r.2 (build p.1 r.2) = <["prompt" := vp]> common
  /\ own_props r.2 (build r.1 r.2) = <["resolve" := vr]> common
  /\ own_props r.2 (build p.1 r.2) !! "resolve" = None
  /\ own_props r.2 (build r.1 r.2) !! "prompt" = None.
Proof.
  intros Hvi c m i o p r common.
  pose proof (createProcess_allocated spec h) as Hc.
  pose proof (createProcess_attributes spec h) as Hca.
  fold c in Hc, Hca.
  destruct (with_attr_link "meta" c.1 vm c.2 Hc) as (_ & Hm & Hma).
  fold (meta c.1 vm c.2) in Hm, Hma. fold m in Hm, Hma.
  destruct (with_attr_link "inputs" m.1 vi m.2 Hm) as (_ & Hi & Hia).
  assert (Hsd : i = with_attr "inputs" m.1 vi m.2)
    by exact (step_defined Inputs _ _ _ Hvi).
  rewrite <- Hsd in Hi, Hia.
  destruct (with_attr_link "output" i.1 vo i.2 Hi) as (_ & Ho & Hoa).
  fold (output i.1 vo i.2) in Ho, Hoa. fold o in Ho, Hoa.
  assert (Hcommon : attributes o.2 o.1 = common).
  { rewrite Hoa, Hia, Hma, Hca. reflexivity. }
  destruct (with_attr_after "prompt" o.1 vp o.2 o.2 (reflexivity _) Ho)
    as (_ & _ & Hp & Ho' & Hoa' & Hpa).
  fold (prompt o.1 vp o.2) in Hp, Ho', Hoa', Hpa. fold p in Hp, Ho', Hoa', Hpa.
  destruct (with_attr_link "resolve" o.1 vr p.2 Ho') as (Hsr & Hr & Hra).
  fold (resolve o.1 vr p.2) in Hsr, Hr, Hra. fold r in Hsr, Hr, Hra.
  assert (H1 : attributes r.2 p.1 = <["prompt" := vp]> common).
  { rewrite (proj2 (attributes_extends p.2 r.2 p.1 Hsr Hp)), Hpa, Hcommon.
    reflexivity. }
  assert (H2 : attributes r.2 r.1 = <["resolve" := vr]> common).
  { rewrite Hra, Hoa', Hcommon. reflexivity. }
  change (attributes r.2 p.1 = <["prompt" := vp]> common
          /\ attributes r.2 r.1 = <["resolve" := vr]> common
          /\ attributes r.2 p.1 !! "resolve" = None
          /\ attributes r.2 r.1 !! "prompt" = None).
  rewrite H1, H2. unfold common.
  split; [reflexivity|]. split; [reflexivity|].
  split; repeat (rewrite lookup_insert_ne by discriminate); reflexivity.
Qed.

(** X19: a step called again on its own result replaces the attribute:
    after [.s(a1).s(a2)] the builder holds what [.s(a2)] alone gives,
    and nothing of [a1]. *)
Theorem repeated_step_overwrites (s : Step) this (a1 a2 : Val) h :
  allocated h this ->
  a2 <> VUndefined ->
  let r1 := step s this a1 h in
  let r2 := step s r1.1 a2 r1.2 in
  attributes r2.2 r2.1 = <[attribute s := a2]> (attributes h this)
  /\ attributes r2.2 r2.1
     = attributes (step s this a2 h).2 (step s this a2 h).1.
Proof.
  intros Hal Ha2 r1 r2.
  destruct (step_spec s this a1 h Hal)
    as (_ & _ & Hal1 & _ & _ & v1 & Hv1 & _).
  fold r1 in Hal1, Hv1.
  destruct (step_link s r1.1 a2 r1.2 Hal1 Ha2) as (_ & _ & Hat2).
  fold r2 in Hat2.
  destruct (step_link s this a2 h Hal Ha2) as (_ & _ & Hdirect).
  rewrite Hdirect, Hat2, Hv1, insert_insert_eq. auto.
Qed.

(** X20: two different steps with given arguments can be called in either
    order: the builders reached hold the same attributes. *)
Theorem different_steps_commute (s1 s2 : Step) this (a1 a2 : Val) h :
  allocated h this ->
  s1 <> s2 ->
  a1 <> VUndefined ->
  a2 <> VUndefined ->
  let r1 := step s1 this a1 h in
  let r12 := step s2 r1.1 a2 r1.2 in
  let r2 := step s2 this a2 h in
  let r21 := step s1 r2.1 a1 r2.2 in
  attributes r12.2 r12.1 = attributes r21.2 r21.1.
Proof.
  intros Hal Hne Ha1 Ha2 r1 r12 r2 r21.
  destruct (step_link s1 this a1 h Hal Ha1) as (_ & Hal1 & Hat1).
  destruct (step_link s2 this a2 h Hal Ha2) as (_ & Hal2 & Hat2).
  fold r1 in Hal1, Hat1. fold r2 in Hal2, Hat2.
  destruct (step_link s2 r1.1 a2 r1.2 Hal1 Ha2) as (_ & _ & Hat12).
  destruct (step_link s1 r2.1 a1 r2.2 Hal2 Ha1) as (_ & _ & Hat21).
  fold r12 in Hat12. fold r21 in Hat21.
  rewrite Hat12, Hat21, Hat1, Hat2.
  apply insert_insert_ne. intros Heq. apply Hne.
  symmetry. exact (attribute_inj _ _ Heq).
Qed.

(** X21: no step touches the identity of a node: the new builder has the
    [spec] and the [kind] of the builder the step was called on. *)
Theorem step_keeps_spec_and_kind (s : Step) this a h :
  allocated h this ->
  attributes (step s this a h).2 (step s this a h).1 !! "spec"
  = attributes h this !! "spec"
  /\ attributes (step s this a h).2 (step s this a h).1 !! "kind"
     = attributes h this !! "kind".
Proof.
  intros Hal.
  destruct (step_spec s this a h Hal)
    as (_ & _ & _ & _ & _ & v & Hv & _).
  rewrite Hv.
  split; apply lookup_insert_ne; destruct s; discriminate.
Qed.

(** X22: the defaults: [codec()] called with [undefined] builds a fresh
    object [{ encode: JSON.stringify, decode: JSON.parse }] for the new
    builder's [codec], and [inputs()] a fresh empty object for its
    [inputs]; in both cases the object was not in the heap before. *)
Theorem undefined_argument_builds_default this h :
  allocated h this ->
  (exists d,
     h !! d = None
     /\ (codec this VUndefined h).2 !! d
        = Some {| class := "Object";
                  props := {["encode" := VFun "JSON.stringify";
                             "decode" := VFun "JSON.parse"]} |}
     /\ attributes (codec this VUndefined h).2 (codec this VUndefined h).1
        = <["codec" := VRef d]> (attributes h this))
  /\ (exists d,
        h !! d = None
        /\ (inputs this VUndefined h).2 !! d
           = Some {| class := "Object"; props := ∅ |}
        /\ attributes (inputs this VUndefined h).2
             (inputs this VUndefined h).1
           = <["inputs" := VRef d]> (attributes h this)).
Proof.
  intros Hal.
  assert (Hdefault : forall attr (p : gmap string Val),
    let d := new_object p h in
    let r := with_attr attr this (VRef d.1) d.2 in
    h !! d.1 = None
    /\ r.2 !! d.1 = Some {| class := "Object"; props := p |}
    /\ attributes r.2 r.1 = <[attr := VRef d.1]> (attributes h this)).
  { intros attr p d r.
    destruct (with_attr_after attr this (VRef d.1) h d.2
                (new_object_extends p h) Hal)
      as (_ & _ & _ & _ & _ & Hat).
    destruct (with_attr_spec attr this (VRef d.1) d.2) as (_ & Hsub & _).
    fold r in Hat, Hsub.
    split; [apply new_object_fresh|]. split; [|exact Hat].
    apply (lookup_weaken d.2); [|exact Hsub].
    apply lookup_insert_eq. }
  split.
  - eexists. exact (Hdefault "codec"
      {["encode" := VFun "JSON.stringify"; "decode" := VFun "JSON.parse"]}).
  - eexists. exact (Hdefault "inputs" ∅).
Qed.

End BuilderMore.

(** ** More runs on the registries *)

Section MoreRuns.

Import Sample.

Local Abbreviation SampleApp net :=
  (App dataNodes resolveNodes promptNodes net).
Local Abbreviation EdgeApp net :=
  (App Edge.dataNodes Edge.resolveNodes Edge.promptNodes net).



Lemma view_failure_sample :
  exists ui,
    EdgeApp answering (Edge.selecting "Fragile" (JStr "x"))
    = (Normal ui, Edge.selecting "Fragile" (JStr "x"))
    /\ View_dataNodeView ui
       = Some (div [Text "Error rendering "; Text "Fragile"; Text ": ";
                    Text "TypeError: cannot render"])
    /\ surfaces (TypeError "cannot render") ui = true.
Proof.
  apply (view_failure_renders_error Edge.dataNodes Edge.resolveNodes
           Edge.promptNodes answering (Edge.selecting "Fragile" (JStr "x"))
           Edge.Fragile (JStr "x") (TypeError "cannot render"));
    reflexivity.
Defined.



Lemma prompt_button_sample :
  exists ui,
    fst (SampleApp answering (viewing "21")) = Normal ui
    /\ exists row,
         Process_prompt ui !! 0%nat = Some row
         /\ onClick (process_button row) (viewing "21")
            = (Normal tt, prompting "annotate" "21")
         /\ Prompting promptNodes
              (snd (onClick (process_button row) (viewing "21"))) annotate.
Proof.
  eexists. split; [reflexivity|].
  apply (prompt_button_activates dataNodes resolveNodes promptNodes
           answering (viewing "21") _ 0 annotate annotate);
    [reflexivity|reflexivity|discriminate|reflexivity].
Defined.

Lemma prompt_flow_sample :
  exists ui props,
    SampleApp answering (prompting "annotate" "21")
    = (Normal ui, prompting "annotate" "21")
    /\ View_dataNodeView ui
       = Some (Element (PromptNode.prompt annotate) props)
    /\ fst (submit props (JNum 7) (prompting "annotate" "21")) = Normal tt
    /\ exists ui',
         SampleApp answering
           (snd (submit props (JNum 7) (prompting "annotate" "21")))
         = (Normal ui',
            snd (submit props (JNum 7) (prompting "annotate" "21")))
         /\ View_dataNodeView ui' = Some (div [Text "7"]).
Proof.
  apply (prompt_flow_shows_submitted_value dataNodes resolveNodes
           promptNodes answering (prompting "annotate" "21") annotate
           (JNum 7) "7" (Text "7"));
    [apply annotate_is_prompting|reflexivity..].
Defined.

Lemma example_flow_sample :
  exists ui,
    fst (SampleApp answering (viewing "3")) = Normal ui
    /\ exists b,
         Examples ui !! 0%nat = Some b
         /\ fst (onClick b (viewing "3")) = Normal tt
         /\ exists ui',
              SampleApp answering (snd (onClick b (viewing "3")))
              = (Normal ui', snd (onClick b (viewing "3")))
              /\ View_dataNodeView ui' = Some (div [Text "21"]).
Proof.
  eexists. split; [reflexivity|].
  apply (example_flow_shows_example dataNodes resolveNodes promptNodes
           answering (viewing "3") _ 0 Number (JNum 21) "21" (Text "21"));
    reflexivity.
Defined.

Lemma resolve_flow_sample :
  exists ui,
    fst (SampleApp answering (viewing "21")) = Normal ui
    /\ exists row,
         Process_resolve ui !! 0%nat = Some row
         /\ fst (onClick (process_button row) (viewing "21")) = Normal tt
         /\ exists ui',
              SampleApp answering
                (snd (onClick (process_button row) (viewing "21")))
              = (Normal ui',
                 snd (onClick (process_button row) (viewing "21")))
              /\ View_dataNodeView ui' = Some (div [Text "42"]).
Proof.
  eexists. split; [reflexivity|].
  apply (resolve_flow_shows_response dataNodes resolveNodes promptNodes
           answering (viewing "21") _ 0 double
           {| json := Normal (JStr "42") |} (JStr "42") (JNum 42)
           (Text "42")); reflexivity.
Defined.

Lemma submit_encode_failure_sample :
  exists ui props,
    SampleApp answering (prompting "annotate" "21")
    = (Normal ui, prompting "annotate" "21")
    /\ View_dataNodeView ui
       = Some (Element (PromptNode.prompt annotate) props)
    /\ forall v e w',
         encode Number_codec v = Throw e ->
         submit props v w'
         = (Throw e,
            {| hooks := {| data := data (hooks w');
                           dataType := "Number";
                           prompt := prompt (hooks w') |};
               requests := requests w' |}).
Proof.
  apply (submit_encode_failure_changes_type_only dataNodes resolveNodes
           promptNodes answering (prompting "annotate" "21") annotate).
  apply annotate_is_prompting.
Defined.

Lemma example_encode_failure_sample :
  exists ui,
    fst (EdgeApp answering (prompting "annotate" "21")) = Normal ui
    /\ exists b,
         Examples ui !! 1%nat = Some b
         /\ forall w',
              onClick b w'
              = (Throw (TypeError "not a number"),
                 {| hooks := {| data := data (hooks w');
                                dataType := "Draft";
                                prompt := None |};
                    requests := requests w' |}).
Proof.
  eexists. split; [reflexivity|].
  apply (example_encode_failure_keeps_buffer Edge.dataNodes
           Edge.resolveNodes Edge.promptNodes answering
           (prompting "annotate" "21") _ 1 Edge.Draft (JStr "soon")
           (TypeError "not a number")); reflexivity.
Defined.


Lemma process_lines_sample :
  exists ui,
    fst (SampleApp answering (viewing "21")) = Normal ui
    /\ List.map key (Process_prompt ui) = ["annotate"; "enter"]
    /\ List.map key (Process_resolve ui) = ["double"]
    /\ (forall i proc,
          Object_values promptNodes !! i = Some proc ->
          exists row,
            Process_prompt ui !! i = Some row
            /\ (fontWeight (process_button row) = "bold"
                <-> exists input node,
                      In (input, node) (PromptNode.inputs proc)
                      /\ DataNode.spec node = "Number")
            /\ (inputs_span row = None <-> PromptNode.inputs proc = []))
    /\ (forall i proc,
          Object_values resolveNodes !! i = Some proc ->
          exists row,
            Process_resolve ui !! i = Some row
            /\ (fontWeight (process_button row) = "bold"
                <-> exists input node,
                      In (input, node) (ResolveNode.inputs proc)
                      /\ DataNode.spec node = "Number")
            /\ (inputs_span row = None <-> ResolveNode.inputs proc = [])).
Proof.
  eexists. split; [reflexivity|].
  apply (process_lines_list_every_operation dataNodes resolveNodes
           promptNodes answering (viewing "21")). reflexivity.
Defined.

Lemma example_buttons_sample :
  exists ui,
    fst (EdgeApp answering (viewing "21")) = Normal ui
    /\ List.map label (Examples ui) = ["Number"; "Draft"].
Proof.
  eexists. split; [reflexivity|].
  apply (example_buttons_follow_registry Edge.dataNodes Edge.resolveNodes
           Edge.promptNodes answering (viewing "21")); [|reflexivity].
  apply (bool_decide_unpack _). vm_compute. exact I.
Defined.

End MoreRuns.

Section MoreBuilderRuns.

Import MetaNode.

(** [MetaNode.createData('Number')] on an empty heap. *)
Local Abbreviation start := (createData "Number" ∅).

Lemma data_path_sample :
  let c := createData "Number" ∅ in
  let m := meta c.1 (VStr "about") c.2 in
  let k := codec m.1 (VFun "numberCodec") m.2 in
  let n := view k.1 (VFun "numberView") k.2 in
  own_props n.2 (build n.1 n.2)
  = <["view" := VFun "numberView"]> (<["codec" := VFun "numberCodec"]>
      (<["meta" := VStr "about"]>
         {["spec" := VStr "Number"; "kind" := VStr "data"]}))
  /\ own_props n.2 (build c.1 n.2)
     = {["spec" := VStr "Number"; "kind" := VStr "data"]}
  /\ forall l o, (∅ : Heap) !! l = Some o -> n.2 !! l = Some o.
Proof.
  apply (data_path_builds_node "Number" (VStr "about")
           (VFun "numberCodec") (VFun "numberView") ∅).
  discriminate.
Defined.

Lemma process_path_sample :
  let c := createProcess "double" ∅ in
  let m := meta c.1 (VStr "about") c.2 in
  let i := inputs m.1 (VStr "in") m.2 in
  let o := output i.1 (VStr "out") i.2 in
  let p := prompt o.1 (VFun "ask") o.2 in
  let r := resolve o.1 (VFun "compute") p.2 in
  let common :=
    <["output" := VStr "out"]> (<["inputs" := VStr "in"]>
      (<["meta" := VStr "about"]>
         ({["spec" := VStr "double"; "kind" := VStr "process"]}
            : gmap string Val))) in
  own_props r.2 (build p.1 r.2) = <["prompt" := VFun "ask"]> common
  /\ own_props r.2 (build r.1 r.2) = <["resolve" := VFun "compute"]> common
  /\ own_props r.2 (build p.1 r.2) !! "resolve" = None
  /\ own_props r.2 (build r.1 r.2) !! "prompt" = None.
Proof.
  apply (process_path_builds_both_kinds "double" (VStr "about") (VStr "in")
           (VStr "out") (VFun "ask") (VFun "compute") ∅).
  discriminate.
Defined.

Lemma repeated_step_sample :
  let r1 := step Meta start.1 (VStr "first") start.2 in
  let r2 := step Meta r1.1 (VStr "second") r1.2 in
  attributes r2.2 r2.1
  = <[attribute Meta := VStr "second"]> (attributes start.2 start.1)
  /\ attributes r2.2 r2.1
     = attributes (step Meta start.1 (VStr "second") start.2).2
                  (step Meta start.1 (VStr "second") start.2).1.
Proof.
  apply (repeated_step_overwrites Meta start.1 (VStr "first")
           (VStr "second") start.2);
    [apply createData_allocated|discriminate].
Defined.

Lemma different_steps_sample :
  let r1 := step Meta start.1 (VStr "about") start.2 in
  let r12 := step View r1.1 (VFun "numberView") r1.2 in
  let r2 := step View start.1 (VFun "numberView") start.2 in
  let r21 := step Meta r2.1 (VStr "about") r2.2 in
  attributes r12.2 r12.1 = attributes r21.2 r21.1.
Proof.
  apply (different_steps_commute Meta View start.1 (VStr "about")
           (VFun "numberView") start.2);
    [apply createData_allocated|discriminate..].
Defined.

Lemma step_keeps_spec_and_kind_sample :
  attributes (step Codec start.1 VUndefined start.2).2
             (step Codec start.1 VUndefined start.2).1 !! "spec"
  = attributes start.2 start.1 !! "spec"
  /\ attributes (step Codec start.1 VUndefined start.2).2
                (step Codec start.1 VUndefined start.2).1 !! "kind"
     = attributes start.2 start.1 !! "kind".
Proof.
  apply (step_keeps_spec_and_kind Codec start.1 VUndefined start.2).
  apply createData_allocated.
Defined.

Lemma undefined_argument_sample :
  (exists d,
     start.2 !! d = None
     /\ (codec start.1 VUndefined start.2).2 !! d
        = Some {| class := "Object";
                  props := {["encode" := VFun "JSON.stringify";
                             "decode" := VFun "JSON.parse"]} |}
     /\ attributes (codec start.1 VUndefined start.2).2
                   (codec start.1 VUndefined start.2).1
        = <["codec" := VRef d]> (attributes start.2 start.1))
  /\ (exists d,
        start.2 !! d = None
        /\ (inputs start.1 VUndefined start.2).2 !! d
           = Some {| class := "Object"; props := ∅ |}
        /\ attributes (inputs start.1 VUndefined start.2).2
                      (inputs start.1 VUndefined start.2).1
           = <["inputs" := VRef d]> (attributes start.2 start.1)).
Proof.
  apply (undefined_argument_builds_default start.1 start.2).
  apply createData_allocated.
Defined.

End MoreBuilderRuns.
